(** * LLM Compiler output parsers

    A shallow embedding of [llama_index/agent/llm_compiler/output_parser.py]:
    the reference pattern and [default_dependency_rule], the plan parser
    [LLMCompilerPlanParser.parse] and the join parser
    [LLMCompilerJoinerParser.parse].

    Texts are Rocq strings; a character is a code point below 256.  Python
    exceptions are values of [exn], and a computation that may raise returns
    a [result]. *)

From Stdlib Require Import ZArith Ascii String List Bool Lia.
From stdpp Require Import gmap.
Import ListNotations.

Local Open Scope string_scope.
Local Open Scope Z_scope.

(** ** Characters *)

Definition LF : ascii := "010"%char.
Definition nl : string := String LF "".

Definition code (c : ascii) : N := N_of_ascii c.

Definition in_range (lo hi : N) (c : ascii) : bool :=
  ((lo <=? code c) && (code c <=? hi))%N.

(** [\d] of Python's [re] on [str]: the decimal digits.  Below 256 these are
    [0-9] only. *)
Definition is_digit (c : ascii) : bool := in_range 48 57 c.

(** [\w]: alphanumeric characters and the underscore.  Below 256 the
    alphanumerics are the ASCII letters and digits together with the Latin-1
    letters and numeric signs. *)
Definition is_word (c : ascii) : bool :=
  is_digit c || in_range 65 90 c || in_range 97 122 c || (code c =? 95)%N
  || (code c =? 170)%N || (code c =? 178)%N || (code c =? 179)%N
  || (code c =? 181)%N || (code c =? 185)%N || (code c =? 186)%N
  || in_range 188 190 c || in_range 192 214 c || in_range 216 246 c
  || in_range 248 255 c.

(** [\s], and the characters removed by [str.strip()]. *)
Definition is_space (c : ascii) : bool :=
  in_range 9 13 c || in_range 28 32 c || (code c =? 133)%N || (code c =? 160)%N.

Definition is_newline (c : ascii) : bool := (code c =? 10)%N.

(** [.] and [[^\n]]: anything but a line feed. *)
Definition not_newline (c : ascii) : bool := negb (is_newline c).

(** ** Exceptions and results *)

Record LLMCompilerParseResult := {
  thought : string;
  idx : Z;
  tool_name : string;
  args : string
}.

Inductive exn :=
| ValueError
| IndexError
| InvalidToolReference (tool : string)
| DuplicateStepId (first second : LLMCompilerParseResult).

Inductive result (A : Type) :=
| OK (a : A)
| Err (e : exn).
Arguments OK {A} a.
Arguments Err {A} e.

#[global] Instance result_ret : MRet result := fun A a => OK a.

#[global] Instance result_bind : MBind result := fun A B f r =>
  match r with
  | OK a => f a
  | Err e => Err e
  end.

(** A [for] loop that appends one element per iteration and stops at the
    first exception. *)
Fixpoint for_each {A B} (f : A -> result B) (l : list A) : result (list B) :=
  match l with
  | [] => OK []
  | a :: l' => b ← f a; bs ← for_each f l'; OK (b :: bs)
  end.

(** A call returns: it raises no exception. *)
Definition returns {A} (r : result A) : Prop := exists a, r = OK a.

(** ** Python string operations *)

Module Py.

(** [sub in s] and [s.find(sub)]: the least index at which [sub] occurs. *)
Fixpoint find_index (sub s : string) : option nat :=
  if String.prefix sub s then Some 0%nat
  else match s with
       | EmptyString => None
       | String _ s' => option_map S (find_index sub s')
       end.

Definition find (s sub : string) : Z :=
  match find_index sub s with
  | Some i => Z.of_nat i
  | None => -1
  end.

Definition contains (sub s : string) : bool :=
  match find_index sub s with
  | Some _ => true
  | None => false
  end.

Definition startswith (s pre : string) : bool := String.prefix pre s.

(** [s[start:stop]] with Python's treatment of negative and out-of-range
    bounds. *)
Definition clamp (len i : Z) : Z :=
  if i <? 0 then Z.max 0 (i + len) else Z.min i len.

Definition slice (s : string) (start stop : Z) : string :=
  let len := Z.of_nat (String.length s) in
  let a := clamp len start in
  let b := clamp len stop in
  String.substring (Z.to_nat a) (Z.to_nat (b - a)) s.

(** [s.split(sep)] for a separator; an empty separator raises [ValueError].
    [skip] counts the characters of a separator found earlier that are
    still to be passed over. *)
Fixpoint split_go (sep s : string) (skip : nat) : list string :=
  match s with
  | EmptyString => [""]
  | String c s' =>
      match skip with
      | S k => split_go sep s' k
      | O =>
          if String.prefix sep s then "" :: split_go sep s' (String.length sep - 1)
          else match split_go sep s' 0 with
               | p :: ps => String c p :: ps
               | [] => [String c ""]
               end
      end
  end.

Definition split (s sep : string) : result (list string) :=
  match sep with
  | EmptyString => Err ValueError
  | _ => OK (split_go sep s 0)
  end.

(** [l[i]] for a non-negative index. *)
Definition getitem {A} (l : list A) (i : nat) : result A :=
  match nth_error l i with
  | Some a => OK a
  | None => Err IndexError
  end.

Fixpoint lstrip (s : string) : string :=
  match s with
  | String c s' => if is_space c then lstrip s' else s
  | EmptyString => ""
  end.

Fixpoint rstrip (s : string) : string :=
  match s with
  | String c s' =>
      match rstrip s' with
      | EmptyString => if is_space c then "" else String c ""
      | t => String c t
      end
  | EmptyString => ""
  end.

Definition strip (s : string) : string := rstrip (lstrip s).

(** [int(s)] on a non-empty string of decimal digits.  Other strings are
    reported as [ValueError]; Python accepts a few more spellings (sign,
    surrounding blanks, underscores), none of which [\d+] can produce.
    Integers are unbounded, but the conversion of a string is not: a
    string of more than [sys.get_int_max_str_digits()] digits, leading
    zeros counted, raises [ValueError].  The limit is the interpreter's
    default, 4300. *)
Definition digit_value (c : ascii) : Z := Z.of_N (code c) - 48.

Fixpoint int_go (acc : Z) (s : string) : result Z :=
  match s with
  | EmptyString => OK acc
  | String c s' =>
      if is_digit c then int_go (10 * acc + digit_value c) s'
      else Err ValueError
  end.

Definition int_max_str_digits : nat := 4300.

Definition int (s : string) : result Z :=
  match s with
  | EmptyString => Err ValueError
  | _ =>
      if (String.length s <=? int_max_str_digits)%nat then int_go 0 s
      else Err ValueError
  end.

End Py.

(** ** The join parser *)

Definition JOINER_REPLAN : string := "Replan".

Record JoinerOutput := {
  jo_thought : string;
  answer : string;
  is_replan : bool
}.

(** One iteration of the loop over [raw_answers]; the state is the triple of
    local variables [thought, answer, is_replan]. *)
Definition joiner_step (st : JoinerOutput) (ans : string) : result JoinerOutput :=
  if Py.startswith ans "Action:" then
    OK {| jo_thought := jo_thought st;
          answer := Py.slice ans (Py.find ans "(" + 1) (Py.find ans ")");
          is_replan := Py.contains JOINER_REPLAN ans |}
  else if Py.startswith ans "Thought:" then
    parts ← Py.split ans "Thought:";
    t ← Py.getitem parts 1;
    OK {| jo_thought := Py.strip t;
          answer := answer st;
          is_replan := is_replan st |}
  else OK st.

Fixpoint joiner_loop (st : JoinerOutput) (raw_answers : list string) : result JoinerOutput :=
  match raw_answers with
  | [] => OK st
  | ans :: rest => st' ← joiner_step st ans; joiner_loop st' rest
  end.

Module LLMCompilerJoinerParser.

Definition parse (text : string) : result JoinerOutput :=
  raw_answers ← Py.split text nl;
  joiner_loop {| jo_thought := ""; answer := ""; is_replan := false |} raw_answers.

End LLMCompilerJoinerParser.

(** ** Regular expressions

    The fragment of Python's [re] that the three patterns of the module use:
    literal text, a greedy [*] or [+] on a character class, concatenation, a
    greedy [?], and capturing groups.  A group is numbered by the position of
    its opening parenthesis. *)

Module Re.

Inductive regex :=
| Lit (s : string)
| Star (cls : ascii -> bool)
| Plus (cls : ascii -> bool)
| Seq (r1 r2 : regex)
| Opt (r : regex)
| Group (r : regex).

Fixpoint ngroups (r : regex) : nat :=
  match r with
  | Lit _ | Star _ | Plus _ => 0
  | Seq r1 r2 => ngroups r1 + ngroups r2
  | Opt r => ngroups r
  | Group r => S (ngroups r)
  end.

(** The text captured by each group that took part in a match. *)
Definition captures := list (nat * string).

Fixpoint lookup_group (c : captures) (i : nat) : option string :=
  match c with
  | [] => None
  | (j, m) :: c' => if Nat.eqb i j then Some m else lookup_group c' i
  end.

Fixpoint drop (n : nat) (s : string) : string :=
  match n, s with
  | S k, String _ s' => drop k s'
  | _, _ => s
  end.

Definition shift (c : ascii) (p : string * string) : string * string :=
  (String c (fst p), snd p).

(** The ways [cls*] can match at the start of [s], as pairs of the matched
    text and the remaining text, the longest first. *)
Fixpoint star (cls : ascii -> bool) (s : string) : list (string * string) :=
  match s with
  | String c s' =>
      if cls c then (shift c <$> star cls s') ++ [("", s)] else [("", s)]
  | EmptyString => [("", "")]
  end.

Definition plus (cls : ascii -> bool) (s : string) : list (string * string) :=
  match s with
  | String c s' => if cls c then shift c <$> star cls s' else []
  | EmptyString => []
  end.

(** A way of matching: the matched text, the remaining text and the groups
    captured so far. *)
Definition way : Type := string * string * captures.

(** All the ways [r] can match at the start of [s], in the order in which a
    backtracking matcher tries them; [n] is the number of groups opened to
    the left of [r]. *)
Fixpoint ways (r : regex) (n : nat) (s : string) (c : captures) : list way :=
  match r with
  | Lit l => if String.prefix l s then [(l, drop (String.length l) s, c)] else []
  | Star cls => (fun p => (fst p, snd p, c)) <$> star cls s
  | Plus cls => (fun p => (fst p, snd p, c)) <$> plus cls s
  | Seq r1 r2 =>
      w1 ← ways r1 n s c;
      (fun w2 : way => (w1.1.1 ++ w2.1.1, w2.1.2, w2.2))
        <$> ways r2 (n + ngroups r1)%nat w1.1.2 w1.2
  | Opt r' => ways r' n s c ++ [("", s, c)]
  | Group r' =>
      (fun w : way => (w.1.1, w.1.2, (S n, w.1.1) :: w.2)) <$> ways r' (S n) s c
  end.

(** [re.match] at the start of [s]: the first way, if any. *)
Definition match_at (r : regex) (s : string) : option (string * captures) :=
  match ways r 0 s [] with
  | w :: _ => Some (w.1.1, w.2)
  | [] => None
  end.

(** The scan of [re.findall]: matches are sought from left to right and do
    not overlap.  [skip] counts the characters of the last match that are
    still to be passed over. *)
Fixpoint scan (r : regex) (s : string) (skip : nat) : list (string * captures) :=
  match skip with
  | S k =>
      match s with
      | String _ s' => scan r s' k
      | EmptyString => []
      end
  | O =>
      match match_at r s with
      | Some m =>
          m :: match s with
               | String _ s' => scan r s' (String.length m.1 - 1)
               | EmptyString => []
               end
      | None =>
          match s with
          | String _ s' => scan r s' 0
          | EmptyString => []
          end
      end
  end.

(** What [re.findall] returns for one match: the groups [1..n], a group
    that did not take part being the empty string; with no group, the whole
    match.  (For a single group Python returns the string itself, which the
    one-element list stands for.) *)
Definition group (c : captures) (i : nat) : string :=
  default "" (lookup_group c i).

Definition item (r : regex) (m : string * captures) : list string :=
  match ngroups r with
  | O => [m.1]
  | n => group m.2 <$> seq 1 n
  end.

Definition findall (r : regex) (s : string) : list (list string) :=
  item r <$> scan r s 0.

End Re.

Import Re.

Infix ">>" := Seq (at level 60, right associativity).

(** ** Patterns and constants of the module *)

(** In verbose form: [Thought:\  ( [^\n]* )] *)
Definition THOUGHT_PATTERN : regex :=
  Lit "Thought: " >> Group (Star not_newline).

(** In verbose form: [\n* ( \d+ ) \. \  ( \w+ ) \( ( .* ) \) ( \s* # \w+ \n )?] *)
Definition ACTION_PATTERN : regex :=
  Star is_newline >> Group (Plus is_digit) >> Lit ". " >> Group (Plus is_word)
  >> Lit "(" >> Group (Star not_newline) >> Lit ")"
  >> Opt (Group (Star is_space >> Lit "#" >> Plus is_word >> Lit nl)).

(** In verbose form: [\$ \{? ( \d+ ) \}?]; the source comments it with
    [$1 or ${1} -> 1]. *)
Definition ID_PATTERN : regex :=
  Lit "$" >> Opt (Lit "{") >> Group (Plus is_digit) >> Opt (Lit "}").

Definition END_OF_PLAN : string := "<END_OF_PLAN>".

(** The numbers referenced in [args]: the first two lines of
    [default_dependency_rule]. *)
Definition int_of_match (match_ : list string) : result Z :=
  match match_ with
  | [digits] => Py.int digits
  | _ => Err ValueError
  end.

Definition reference_numbers (args : string) : result (list Z) :=
  let matches := findall ID_PATTERN args in
  for_each int_of_match matches.

Definition default_dependency_rule (idx : Z) (args : string) : result bool :=
  numbers ← reference_numbers args;
  OK (bool_decide (idx ∈ numbers)).

(** ** The graph of tasks *)

Record TaskNode := {
  id : Z;
  task_tool_name : string;
  arguments : string;
  dependencies : gset Z;
  task_thought : string
}.

Record PlanGraph := {
  nodes : gmap Z TaskNode;
  join_node_id : Z;
  join_edges : gset Z
}.

Definition same_content (a b : LLMCompilerParseResult) : bool :=
  String.eqb (tool_name a) (tool_name b) && String.eqb (args a) (args b).

(** Modelled from the spec: [get_graph_dict], of
    [llama_index/agent/llm_compiler/utils.py], which the parser calls and
    whose source is not available.  This is the Plan Graph Builder of the
    specification (section 4.3).

    [consume] goes through the step records in order.  A tool name outside
    the capability set fails the whole parse with [InvalidToolReference];
    an id seen before fails with [DuplicateStepId] when the tool or the
    arguments differ, and is dropped when they are identical. *)
Fixpoint consume (tools : list string) (seen : gmap Z LLMCompilerParseResult)
    (steps : list LLMCompilerParseResult) : result (gmap Z LLMCompilerParseResult) :=
  match steps with
  | [] => OK seen
  | st :: rest =>
      if bool_decide (tool_name st ∈ tools) then
        match seen !! idx st with
        | None => consume tools (<[idx st := st]> seen) rest
        | Some st0 =>
            if same_content st0 st then consume tools seen rest
            else Err (DuplicateStepId st0 st)
        end
      else Err (InvalidToolReference (tool_name st))
  end.

(** Modelled from the spec: the node of a step.  Its dependencies are the
    ids referenced in the arguments through the reference pattern,
    intersected with the ids of the plan, the step's own id left out. *)
Definition make_node (ids : gset Z) (st : LLMCompilerParseResult) : result TaskNode :=
  numbers ← reference_numbers (args st);
  OK {| id := idx st;
        task_tool_name := tool_name st;
        arguments := args st;
        dependencies := (list_to_set numbers ∩ ids) ∖ {[idx st]};
        task_thought := thought st |}.

Definition make_entry (ids : gset Z) (e : Z * LLMCompilerParseResult)
    : result (Z * TaskNode) :=
  node ← make_node ids e.2; OK (e.1, node).

(** Modelled from the spec: the sentinel is an id that no step uses, and
    every node that no other node depends on has an edge to it. *)
Definition sentinel (ids : gset Z) : Z :=
  set_fold Z.min 0 ids - 1.

Definition referenced (entries : list (Z * TaskNode)) : gset Z :=
  ⋃ ((fun e => dependencies e.2) <$> entries).

Definition get_graph_dict (results : list LLMCompilerParseResult)
    (tools : list string) : result PlanGraph :=
  seen ← consume tools ∅ results;
  let ids := dom seen in
  entries ← for_each (make_entry ids) (map_to_list seen);
  OK {| nodes := list_to_map entries;
        join_node_id := sentinel ids;
        join_edges := ids ∖ referenced entries |}.

(** ** The plan parser *)

(** [(?:{THOUGHT_PATTERN}\n)?{ACTION_PATTERN}] *)
Definition pattern : regex :=
  Opt (THOUGHT_PATTERN >> Lit nl) >> ACTION_PATTERN.

(** The body of the loop over [matches]: unpacking the five groups and
    converting the id. *)
Definition parse_result_of_match (match_ : list string) : result LLMCompilerParseResult :=
  match match_ with
  | [thought; idx; tool_name; args; _] =>
      idx ← Py.int idx;
      OK {| thought := thought; idx := idx; tool_name := tool_name; args := args |}
  | _ => Err ValueError
  end.

(** The list [results] that [parse] hands to [get_graph_dict]. *)
Definition step_records (text : string) : result (list LLMCompilerParseResult) :=
  let matches := findall pattern text in
  for_each parse_result_of_match matches.

Module LLMCompilerPlanParser.

(** The parser object; a tool is known by its name. *)
Record t := { tools : list string }.

Definition parse (self : t) (text : string) : result PlanGraph :=
  results ← step_records text;
  get_graph_dict results (tools self).

End LLMCompilerPlanParser.

(** ** Notions used to state the properties *)

(** The lines of a join text, and the line that decides the answer: the
    last one that starts with the action prefix. *)
Definition lines (text : string) : list string := Py.split_go nl text 0.

Definition is_action (line : string) : bool := Py.startswith line "Action:".

Definition last_action_line (text : string) : option string :=
  last (List.filter is_action (lines text)).

(** The index of the last occurrence of a character. *)
Fixpoint last_index (c : ascii) (s : string) : option nat :=
  match s with
  | EmptyString => None
  | String d s' =>
      match last_index c s' with
      | Some i => Some (S i)
      | None => if Ascii.eqb c d then Some 0%nat else None
      end
  end.

(** The payload as the specification words it: the text strictly between
    the first opening and the last closing parenthesis of a line. *)
Definition between_first_and_last (line : string) : option string :=
  match Py.find_index "(" line, last_index ")" line with
  | Some i, Some j => Some (String.substring (S i) (j - S i) line)
  | _, _ => None
  end.

(** The value that the loop of the join parser assigns to [answer]. *)
Definition payload (ans : string) : string :=
  Py.slice ans (Py.find ans "(" + 1) (Py.find ans ")").

(** The payload rule as the specification words it, for a join text. *)
Definition payload_first_to_last (text : string) : Prop :=
  forall line out p,
    last_action_line text = Some line ->
    LLMCompilerJoinerParser.parse text = OK out ->
    between_first_and_last line = Some p ->
    answer out = p.

(** Every character of a text is in a class. *)
Fixpoint all_in (cls : ascii -> bool) (s : string) : bool :=
  match s with
  | EmptyString => true
  | String c s' => cls c && all_in cls s'
  end.

(** A non-empty text of decimal digits. *)
Definition numeral (s : string) : Prop :=
  s <> "" /\ all_in is_digit s = true.

(** A text that [int] is willing to read: it has no more characters than
    the limit on the digits of a numeral. *)
Definition short (s : string) : bool :=
  (String.length s <=? Py.int_max_str_digits)%nat.


Definition reference_numerals (args : string) : list string :=
  (fun m => group m.2 1) <$> scan ID_PATTERN args 0.


(** The set of step ids that the reference pattern finds in [args]. *)
Definition reference_set (args : string) (ids : gset Z) : Prop :=
  exists numbers, reference_numbers args = OK numbers /\ list_to_set numbers = ids.

(** The end-of-plan rule as the specification words it, for a text cut at
    an occurrence of the marker: every node of the graph is a step that
    occurs before the marker. *)
Definition stops_at_end_of_plan (self : LLMCompilerPlanParser.t)
    (before after : string) : Prop :=
  forall g steps k,
    LLMCompilerPlanParser.parse self (before ++ END_OF_PLAN ++ after) = OK g ->
    step_records before = OK steps ->
    is_Some (nodes g !! k) ->
    exists st, st ∈ steps /\ idx st = k.

(** What [consume] keeps: every record is filed under its own id and comes
    from the list of steps. *)
Definition filed (steps : list LLMCompilerParseResult)
    (seen : gmap Z LLMCompilerParseResult) : Prop :=
  forall k st, seen !! k = Some st -> idx st = k /\ st ∈ steps.

(** A line without its final character. *)
Definition chop (line : string) : string :=
  String.substring 0 (String.length line - 1) line.


(** The text behind a greedy repetition of [cls] stops it: it is empty or
    starts with a character outside the class. *)
Definition stops (cls : ascii -> bool) (s : string) : bool :=
  match s with
  | EmptyString => true
  | String c _ => negb (cls c)
  end.

(** The way through [r1 >> r2] made of a way through each. *)
Definition join_ways (w1 w2 : way) : way := (w1.1.1 ++ w2.1.1, w2.1.2, w2.2).


(** What may follow a step for its match to end at the closing parenthesis:
    nothing, or a line feed that is not followed by blanks or a tag. *)
Definition quiet (post : string) : bool :=
  match post with
  | EmptyString => true
  | String c rest =>
      Ascii.eqb c LF &&
      match rest with
      | EmptyString => true
      | String d _ => negb (is_space d) && negb (Ascii.eqb d "#")
      end
  end.

(** The end of the action pattern: the optional tag, in verbose form
    [( \s* # \w+ \n )?]. *)
Definition TAG : regex :=
  Opt (Group (Star is_space >> Lit "#" >> Plus is_word >> Lit nl)).


(** A text that ends a step in front of it: it stops [.*], and the
    optional tag finds nothing to take in it. *)
Definition ends_step (post : string) : Prop :=
  stops not_newline post = true /\
  forall n c, ways TAG n post c = [("", post, c)].

(** A step as a plan writes it. *)
Definition step_line (num tool a : string) : string :=
  num ++ ". " ++ tool ++ "(" ++ a ++ ")".

Definition well_formed (num tool a : string) : Prop :=
  numeral num /\ (tool <> "" /\ all_in is_word tool = true) /\
  all_in not_newline a = true.

(** An entry of a plan: an optional thought and a step. *)
Record entry := {
  e_thought : option string;
  e_num : string;
  e_tool : string;
  e_args : string
}.

Definition entry_text (e : entry) : string :=
  match e_thought e with
  | Some t => "Thought: " ++ t ++ nl ++ step_line (e_num e) (e_tool e) (e_args e)
  | None => step_line (e_num e) (e_tool e) (e_args e)
  end.

Definition entry_ok (e : entry) : Prop :=
  match e_thought e with
  | Some t => all_in not_newline t = true
  | None => True
  end /\ well_formed (e_num e) (e_tool e) (e_args e).

(** The entries on lines of their own: [nl.join(entries)]. *)
Fixpoint more_entries (l : list entry) : string :=
  match l with
  | [] => ""
  | e :: l' => nl ++ entry_text e ++ more_entries l'
  end.

Definition plan_text (l : list entry) : string :=
  match l with
  | [] => ""
  | e :: l' => entry_text e ++ more_entries l'
  end.

(** What [re.findall] is to return for an entry. *)
Definition entry_groups (e : entry) : list string :=
  [default "" (e_thought e); e_num e; e_tool e; e_args e; ""].

(** The record of an entry. *)
Definition entry_record (e : entry) : result LLMCompilerParseResult :=
  z ← Py.int (e_num e);
  OK {| thought := default "" (e_thought e); idx := z;
        tool_name := e_tool e; args := e_args e |}.

(** A line that the loop of the join parser reads as a thought. *)
Definition is_thought (line : string) : bool :=
  negb (is_action line) && Py.startswith line "Thought:".

Definition last_thought_line (text : string) : option string :=
  last (List.filter is_thought (lines text)).

(** The value that the loop assigns to [thought]. *)
Definition thought_of (ans : string) : result string :=
  parts ← Py.split ans "Thought:";
  t ← Py.getitem parts 1;
  OK (Py.strip t).

Definition other_than (x : ascii) (c : ascii) : bool := negb (Ascii.eqb c x).

(** The first [k] characters of a text are there and none is [x]. *)
Fixpoint clear (x : ascii) (k : nat) (s : string) : bool :=
  match k, s with
  | O, _ => true
  | S k', String c s' => other_than x c && clear x k' s'
  | S _, EmptyString => false
  end.

Fixpoint count_char (x : ascii) (s : string) : nat :=
  match s with
  | EmptyString => 0
  | String c s' => (if Ascii.eqb c x then 1 else 0) + count_char x s'
  end.

(** [_mock_tokenizer] of [tests/indices/tree/test_embedding_retriever.py]:
    [len(text.split(" "))]. *)
Definition _mock_tokenizer (text : string) : result Z :=
  parts ← Py.split text " ";
  OK (Z.of_nat (length parts)).

(** A join text as the joiner prompt asks for it: a thought line and an
    action line. *)
Definition action_line (name p : string) : string :=
  "Action: " ++ name ++ "(" ++ p ++ ")".

Definition join_text (t name p : string) : string :=
  "Thought: " ++ t ++ nl ++ action_line name p.

(** A tag behind a step: blanks, the sign, a word and a line feed. *)
Definition tag_text (sp tag : string) : string := sp ++ "#" ++ tag ++ nl.

(** A way of a repetition, behind a text that the repetition has taken. *)
Definition prepend (a : string) (p : string * string) : string * string :=
  (a ++ p.1, p.2).





(** * Properties *)

(** ** Python string operations *)

Lemma find_index_le sub s i :
  Py.find_index sub s = Some i -> (i <= String.length s)%nat.
Proof.
  revert i. induction s as [|c s IH]; intros i; cbn [Py.find_index].
  - destruct (String.prefix sub ""); [|discriminate].
    intros [= <-]. lia.
  - destruct (String.prefix sub (String c s)).
    + intros [= <-]. lia.
    + destruct (Py.find_index sub s) as [k|]; [|discriminate].
      intros [= <-]. specialize (IH k eq_refl). cbn [String.length]. lia.
Qed.

Lemma split_go_nonempty sep s k : Py.split_go sep s k <> [].
Proof.
  revert k. induction s as [|c s IH]; intros k; cbn [Py.split_go]; [done|].
  destruct k as [|k]; [|apply IH].
  destruct (String.prefix sep (String c s)); [done|].
  destruct (Py.split_go sep s 0); done.
Qed.

(** ** The join parser *)

Lemma thought_part ans :
  Py.startswith ans "Thought:" = true ->
  exists t, (parts ← Py.split ans "Thought:"; Py.getitem parts 1) = OK t.
Proof.
  intros H. destruct ans as [|c ans]; [discriminate|].
  unfold Py.split. cbn [mbind result_bind Py.split_go].
  unfold Py.startswith in H. rewrite H.
  unfold Py.getitem. cbn [nth_error].
  pose proof (split_go_nonempty "Thought:" ans (String.length "Thought:" - 1)) as Hne.
  destruct (Py.split_go "Thought:" ans (String.length "Thought:" - 1)) as [|t ts];
    [congruence|]. eauto.
Qed.

Lemma joiner_step_ok st ans :
  exists st', joiner_step st ans = OK st' /\
    if is_action ans
    then answer st' = payload ans /\ is_replan st' = Py.contains JOINER_REPLAN ans
    else answer st' = answer st /\ is_replan st' = is_replan st.
Proof.
  unfold joiner_step, is_action.
  destruct (Py.startswith ans "Action:"); [eauto|].
  destruct (Py.startswith ans "Thought:") eqn:Ht; [|eauto].
  destruct (thought_part ans Ht) as [t Hp].
  unfold mbind, result_bind in *.
  destruct (Py.split ans "Thought:") as [parts|]; [|discriminate].
  rewrite Hp. eauto.
Qed.

Lemma joiner_loop_ok ls : forall st,
  exists out, joiner_loop st ls = OK out /\
    answer out = match last (List.filter is_action ls) with
                 | Some l => payload l
                 | None => answer st
                 end /\
    is_replan out = match last (List.filter is_action ls) with
                    | Some l => Py.contains JOINER_REPLAN l
                    | None => is_replan st
                    end.
Proof.
  induction ls as [|ans ls IH]; intros st; cbn [joiner_loop List.filter].
  - eauto.
  - destruct (joiner_step_ok st ans) as (st' & -> & Hst').
    destruct (IH st') as (out & Hout & Ha & Hr).
    exists out. split; [exact Hout|].
    destruct (is_action ans).
    + rewrite last_cons. destruct Hst' as [Ea Er].
      destruct (last (List.filter is_action ls)); rewrite Ha, Hr; auto.
    + destruct Hst' as [Ea Er]. rewrite Ha, Hr, Ea, Er. auto.
Qed.

Lemma joiner_parse_ok text :
  exists out, LLMCompilerJoinerParser.parse text = OK out /\
    answer out = match last_action_line text with
                 | Some l => payload l
                 | None => ""
                 end /\
    is_replan out = match last_action_line text with
                    | Some l => Py.contains JOINER_REPLAN l
                    | None => false
                    end.
Proof.
  unfold LLMCompilerJoinerParser.parse, last_action_line, lines.
  exact (joiner_loop_ok _ _).
Qed.

Lemma startswith_app p : forall s, String.prefix p s = true -> exists r, s = p ++ r.
Proof.
  induction p as [|a p IH]; intros s H.
  - exists s. reflexivity.
  - destruct s as [|b s]; [discriminate|]. cbn [String.prefix] in H.
    destruct (ascii_dec a b) as [->|]; [|discriminate].
    destruct (IH s H) as [r ->]. exists r. reflexivity.
Qed.

Lemma last_filter_true {A} (f : A -> bool) l x :
  last (List.filter f l) = Some x -> f x = true.
Proof.
  intros H. apply last_Some_elem_of, list_elem_of_In, filter_In in H. tauto.
Qed.

Lemma filter_all_false {A} (f : A -> bool) l :
  Forall (fun x => f x = false) l -> List.filter f l = [].
Proof.
  induction 1 as [|x l Hx _ IH]; cbn [List.filter]; [reflexivity|].
  rewrite Hx. exact IH.
Qed.

(** C6.  The join text [Action: Replan(need more data)], a single line with
    no thought line, is parsed into an empty thought, the answer
    [need more data] and a raised replan flag. *)
Theorem joiner_replan_scenario :
  LLMCompilerJoinerParser.parse "Action: Replan(need more data)"
  = OK {| jo_thought := ""; answer := "need more data"; is_replan := true |}.
Proof. vm_compute. reflexivity. Qed.

(** C7.  The join parser returns a result for every text: no step of it
    raises.  When no line starts with the action prefix, the answer is the
    empty string and the replan flag is false. *)
Theorem joiner_parse_total text :
  exists out, LLMCompilerJoinerParser.parse text = OK out /\
    (Forall (fun line => Py.startswith line "Action:" = false) (lines text) ->
     answer out = "" /\ is_replan out = false).
Proof.
  destruct (joiner_parse_ok text) as (out & H & Ha & Hr).
  exists out. split; [exact H|]. intros Hno.
  unfold last_action_line in Ha, Hr.
  rewrite (filter_all_false is_action _ Hno) in Ha, Hr. auto.
Qed.

(** C7, an instance: a text with a thought line and no action line. *)
Lemma joiner_parse_total_witness :
  exists out, LLMCompilerJoinerParser.parse ("Thought: not yet" ++ nl ++ "more text") = OK out /\
    answer out = "" /\ is_replan out = false.
Proof.
  destruct (joiner_parse_total ("Thought: not yet" ++ nl ++ "more text")) as (out & H & D).
  exists out. split; [exact H|]. apply D.
  vm_compute. repeat constructor.
Defined.

(** C2, as amended.  When the first opening parenthesis of the last action
    line comes before its first closing parenthesis, the answer is the text
    strictly between these two: the closing parenthesis that ends the
    payload is the first one of the line, not the last. *)
Theorem joiner_answer_first_parentheses text line i j :
  last_action_line text = Some line ->
  Py.find_index "(" line = Some i ->
  Py.find_index ")" line = Some j ->
  (i < j)%nat ->
  exists out, LLMCompilerJoinerParser.parse text = OK out /\
    answer out = String.substring (S i) (j - S i) line.
Proof.
  intros Hl Hi Hj Hij.
  destruct (joiner_parse_ok text) as (out & H & Ha & _).
  exists out. split; [exact H|]. rewrite Hl in Ha. rewrite Ha.
  unfold payload, Py.find, Py.slice, Py.clamp. rewrite Hi, Hj.
  pose proof (find_index_le _ _ _ Hj) as Hlen.
  destruct (Z.ltb_spec (Z.of_nat i + 1) 0); [lia|].
  destruct (Z.ltb_spec (Z.of_nat j) 0); [lia|].
  f_equal; lia.
Qed.

(** C2, an instance: a payload that holds a closing parenthesis. *)
Lemma joiner_answer_first_parentheses_witness :
  exists out, LLMCompilerJoinerParser.parse "Action: Finish(f(x))" = OK out /\
    answer out = "f(x".
Proof.
  apply (joiner_answer_first_parentheses "Action: Finish(f(x))"
           "Action: Finish(f(x))" 14 18); [reflexivity..|lia].
Defined.

(** C2 as the specification states it fails on a payload that holds a
    closing parenthesis of its own. *)
Lemma payload_first_to_last_fails :
  ~ payload_first_to_last "Action: Finish(f(x))".
Proof.
  intros H.
  specialize (H "Action: Finish(f(x))"
                {| jo_thought := ""; answer := "f(x"; is_replan := false |}
                "f(x)").
  assert (E : "f(x" = "f(x)") by (apply H; vm_compute; reflexivity).
  discriminate E.
Qed.

(** C10.  When the last action line holds no parenthesis at all, the parse
    does not fail and the answer is that line without its final character,
    which is not the empty string. *)
Theorem joiner_answer_no_parentheses text line :
  last_action_line text = Some line ->
  Py.find_index "(" line = None ->
  Py.find_index ")" line = None ->
  exists out, LLMCompilerJoinerParser.parse text = OK out /\
    answer out = chop line /\ answer out <> "".
Proof.
  intros Hl Ho Hc.
  destruct (joiner_parse_ok text) as (out & H & Ha & _).
  exists out. split; [exact H|]. rewrite Hl in Ha.
  assert (E : payload line = chop line).
  { unfold payload, Py.find, Py.slice, Py.clamp, chop. rewrite Ho, Hc.
    change (-1 + 1 <? 0) with false. change (-1 <? 0) with true.
    cbv iota. f_equal; lia. }
  rewrite Ha, E. split; [reflexivity|].
  apply last_filter_true in Hl. apply startswith_app in Hl as [r ->].
  unfold chop. cbn. discriminate.
Qed.

(** C10, an instance: the action line [Action: Finish]. *)
Lemma joiner_answer_no_parentheses_witness :
  exists out, LLMCompilerJoinerParser.parse ("Thought: done" ++ nl ++ "Action: Finish") = OK out /\
    answer out = "Action: Finis" /\ answer out <> "".
Proof.
  apply (joiner_answer_no_parentheses ("Thought: done" ++ nl ++ "Action: Finish")
           "Action: Finish"); reflexivity.
Defined.

(** ** The matcher *)

Lemma star_class cls s p : p ∈ star cls s -> all_in cls p.1 = true.
Proof.
  revert p. induction s as [|a s IH]; intros p; cbn [star].
  - intros ->%list_elem_of_singleton. reflexivity.
  - destruct (cls a) eqn:Ha.
    + rewrite elem_of_app, list_elem_of_fmap, list_elem_of_singleton.
      intros [(q & -> & Hq) | ->]; [|reflexivity].
      cbn. rewrite Ha. exact (IH q Hq).
    + intros ->%list_elem_of_singleton. reflexivity.
Qed.

Lemma plus_class cls s p :
  p ∈ plus cls s -> p.1 <> "" /\ all_in cls p.1 = true.
Proof.
  destruct s as [|a s]; cbn [plus]; [intros []%elem_of_nil|].
  destruct (cls a) eqn:Ha; [|intros []%elem_of_nil].
  intros (q & -> & Hq)%list_elem_of_fmap. cbn. rewrite Ha.
  split; [discriminate|]. exact (star_class cls s q Hq).
Qed.

Lemma ways_seq r1 r2 n s c (w : way) :
  w ∈ ways (r1 >> r2) n s c ->
  exists w1 w2 : way,
    w1 ∈ ways r1 n s c /\
    w2 ∈ ways r2 (n + ngroups r1)%nat w1.1.2 w1.2 /\
    w = (w1.1.1 ++ w2.1.1, w2.1.2, w2.2).
Proof.
  cbn [ways]. intros (w1 & Hw & H1)%list_elem_of_bind.
  apply list_elem_of_fmap in Hw as (w2 & -> & H2). eauto.
Qed.

(** A regular expression leaves alone the groups that are not its own. *)
Lemma ways_frame r : forall n s c (w : way) i,
  w ∈ ways r n s c ->
  (i <= n \/ n + ngroups r < i)%nat ->
  lookup_group w.2 i = lookup_group c i.
Proof.
  induction r as [l|cls|cls|r1 IH1 r2 IH2|r IH|r IH]; intros n s c w i Hw Hi.
  - cbn [ways] in Hw. destruct (String.prefix l s); [|by apply elem_of_nil in Hw].
    apply list_elem_of_singleton in Hw as ->. reflexivity.
  - cbn [ways] in Hw. apply list_elem_of_fmap in Hw as (p & -> & _). reflexivity.
  - cbn [ways] in Hw. apply list_elem_of_fmap in Hw as (p & -> & _). reflexivity.
  - apply ways_seq in Hw as (w1 & w2 & H1 & H2 & ->). cbn [ngroups] in Hi.
    cbn [snd]. rewrite (IH2 _ _ _ _ i H2) by lia. apply (IH1 _ _ _ _ i H1). lia.
  - cbn [ways] in Hw. cbn [ngroups] in Hi.
    apply elem_of_app in Hw as [Hw | ->%list_elem_of_singleton]; [|reflexivity].
    exact (IH _ _ _ _ i Hw Hi).
  - cbn [ways] in Hw. cbn [ngroups] in Hi.
    apply list_elem_of_fmap in Hw as (w' & -> & Hw'). cbn [snd lookup_group].
    destruct (Nat.eqb_spec i (S n)); [lia|].
    apply (IH _ _ _ _ i Hw'). lia.
Qed.

(** A group around [cls+] captures a non-empty text of the class. *)
Lemma ways_group_plus cls n s c (w : way) :
  w ∈ ways (Group (Plus cls)) n s c ->
  exists m, lookup_group w.2 (S n) = Some m /\ m <> "" /\ all_in cls m = true.
Proof.
  cbn [ways]. intros (w' & -> & Hw')%list_elem_of_fmap.
  apply list_elem_of_fmap in Hw' as (p & -> & Hp).
  exists p.1. cbn [fst snd lookup_group]. rewrite Nat.eqb_refl.
  split; [reflexivity|]. exact (plus_class cls s p Hp).
Qed.

Lemma match_at_way r s m :
  match_at r s = Some m -> exists w : way, w ∈ ways r 0 s [] /\ m = (w.1.1, w.2).
Proof.
  unfold match_at. destruct (ways r 0 s []) as [|w ws]; [discriminate|].
  intros [= <-]. exists w. split; [left|reflexivity].
Qed.

(** Every match reported by the scan is a match at some position. *)
Lemma scan_match r s : forall k m,
  m ∈ scan r s k -> exists s0, match_at r s0 = Some m.
Proof.
  induction s as [|a s IH]; intros k m; destruct k as [|k]; cbn [scan].
  - destruct (match_at r "") as [m0|] eqn:E; [|intros []%elem_of_nil].
    intros ->%list_elem_of_singleton. eauto.
  - intros []%elem_of_nil.
  - destruct (match_at r (String a s)) as [m0|] eqn:E.
    + intros [-> | H]%elem_of_cons; [eauto|]. exact (IH _ _ H).
    + apply IH.
  - apply IH.
Qed.

Lemma int_go_numeral s : forall acc,
  all_in is_digit s = true -> exists z, Py.int_go acc s = OK z.
Proof.
  induction s as [|a s IH]; intros acc Hd; cbn [Py.int_go]; [eauto|].
  cbn [all_in] in Hd. apply andb_prop in Hd as [-> Hd]. apply IH, Hd.
Qed.

(** [int] reads every numeral within the limit. *)
Lemma int_numeral s : numeral s -> short s = true -> exists z, Py.int s = OK z.
Proof.
  intros [Hne Hd] Hs. unfold Py.int. destruct s as [|a s]; [congruence|].
  unfold short in Hs. rewrite Hs. by apply int_go_numeral.
Qed.

(** Beyond the limit [int] raises, whatever the text. *)
Lemma int_long s : short s = false -> Py.int s = Err ValueError.
Proof.
  unfold short, Py.int. intros H. destruct s as [|a s]; [reflexivity|]. by rewrite H.
Qed.

Lemma int_short s z : Py.int s = OK z -> short s = true.
Proof.
  intros H. destruct (short s) eqn:E; [reflexivity|].
  rewrite (int_long s E) in H. discriminate H.
Qed.

(** [int] knows one exception. *)
Lemma int_go_error s : forall acc e, Py.int_go acc s = Err e -> e = ValueError.
Proof.
  induction s as [|a s IH]; intros acc e; cbn [Py.int_go]; [discriminate|].
  destruct (is_digit a); [apply IH|by intros [= <-]].
Qed.

Lemma int_error s e : Py.int s = Err e -> e = ValueError.
Proof.
  unfold Py.int. destruct s as [|a s]; [by intros [= <-]|].
  destruct (_ <=? _)%nat; [apply int_go_error|by intros [= <-]].
Qed.

Lemma for_each_ok {A B} (f : A -> result B) l :
  Forall (fun a => exists b, f a = OK b) l -> exists bs, for_each f l = OK bs.
Proof.
  induction 1 as [|a l [b Hb] _ [bs IH]]; cbn [for_each]; [eauto|].
  rewrite Hb. cbn [mbind result_bind]. rewrite IH. eauto.
Qed.


(** The group of the reference pattern is a numeral. *)
Lemma id_pattern_digits s m :
  match_at ID_PATTERN s = Some m -> numeral (group m.2 1).
Proof.
  intros (w & Hw & ->)%match_at_way. unfold ID_PATTERN in Hw.
  apply ways_seq in Hw as (w1 & w2 & _ & H2 & ->).
  apply ways_seq in H2 as (w3 & w4 & _ & H4 & ->).
  apply ways_seq in H4 as (w5 & w6 & H5 & H6 & ->).
  apply ways_group_plus in H5 as (d & Hd & Hne & Hall).
  apply (ways_frame _ _ _ _ _ 1%nat) in H6; [|cbn; lia].
  cbn in Hd, H6. cbn [snd]. unfold group. rewrite H6, Hd. split; assumption.
Qed.


(** Scanning the arguments for references raises for a numeral beyond the
    limit only. *)
Lemma reference_numbers_ok args :
  Forall (fun s => short s = true) (reference_numerals args) ->
  exists numbers, reference_numbers args = OK numbers.
Proof.
  unfold reference_numerals. rewrite Forall_fmap, Forall_forall. intros Hshort.
  unfold reference_numbers, findall. apply for_each_ok, Forall_forall.
  intros x (m & -> & Hm)%list_elem_of_fmap. specialize (Hshort m Hm).
  apply scan_match in Hm as [s0 Hm]. apply id_pattern_digits in Hm.
  change (item ID_PATTERN m) with (group m.2 <$> seq 1 1).
  cbn [seq fmap list_fmap int_of_match]. exact (int_numeral _ Hm Hshort).
Qed.

(** ** The reference pattern *)

Lemma no_sigil_no_match a s :
  String.prefix "$" (String a s) = false -> match_at ID_PATTERN (String a s) = None.
Proof.
  intros H. unfold match_at, ID_PATTERN. cbn [ways]. rewrite H. reflexivity.
Qed.

Lemma scan_no_sigil s : forall k,
  Py.contains "$" s = false -> scan ID_PATTERN s k = [].
Proof.
  unfold Py.contains.
  induction s as [|a s IH]; intros k H; destruct k as [|k]; cbn [scan];
    try reflexivity; cbn [Py.find_index] in H.
  - destruct (String.prefix "$" (String a s)) eqn:E; [discriminate|].
    rewrite (no_sigil_no_match a s E). apply IH.
    destruct (Py.find_index "$" s); [discriminate|reflexivity].
  - apply IH. destruct (String.prefix "$" (String a s)); [discriminate|].
    destruct (Py.find_index "$" s); [discriminate|reflexivity].
Qed.

(** C1, as amended.  In [lookup($1, ${2}, x$3y)] the reference pattern finds
    exactly the ids 1, 2 and 3: the pattern has no boundary rule, so the
    [$3] inside [x$3y] counts.  A text without the sigil, such as [tool7],
    yields no reference at all. *)
Theorem reference_scan :
  reference_set "lookup($1, ${2}, x$3y)" {[1; 2; 3]} /\
  default_dependency_rule 3 "lookup($1, ${2}, x$3y)" = OK true /\
  forall args, Py.contains "$" args = false -> reference_numbers args = OK [].
Proof.
  split; [|split].
  - exists [1; 2; 3]. split; [vm_compute; reflexivity|]. set_solver.
  - vm_compute. reflexivity.
  - intros args H. unfold reference_numbers, findall.
    rewrite (scan_no_sigil args 0 H). reflexivity.
Qed.

(** C1, an instance: [tool7] has a digit but no sigil. *)
Lemma reference_scan_witness : reference_numbers "tool7" = OK [].
Proof. apply (proj2 (proj2 reference_scan) "tool7"). reflexivity. Defined.

(** C1 as the specification states it fails: the set is not [{1, 2}]. *)
Lemma reference_scan_not_1_2 :
  ~ reference_set "lookup($1, ${2}, x$3y)" {[1; 2]}.
Proof.
  intros (numbers & H & E). vm_compute in H. injection H as <-.
  assert (3 ∈ ({[1; 2]} : gset Z)) as Hin by (rewrite <- E; set_solver).
  set_solver.
Qed.

(** ** The graph builder *)

Lemma for_each_elem {A B} (f : A -> result B) l : forall bs b,
  for_each f l = OK bs -> b ∈ bs -> exists a, a ∈ l /\ f a = OK b.
Proof.
  induction l as [|a l IH]; intros bs b; cbn [for_each].
  - intros [= <-] []%elem_of_nil.
  - destruct (f a) as [b0|] eqn:Ea; [|discriminate]. cbn [mbind result_bind].
    destruct (for_each f l) as [bs0|] eqn:El; [|discriminate].
    intros [= <-] [-> | Hb]%elem_of_cons.
    + exists a. split; [left|exact Ea].
    + destruct (IH bs0 b eq_refl Hb) as (a' & Ha' & Hf).
      exists a'. split; [by right|exact Hf].
Qed.

Lemma for_each_image {A B} (f : A -> result B) l : forall bs a,
  for_each f l = OK bs -> a ∈ l -> exists b, b ∈ bs /\ f a = OK b.
Proof.
  induction l as [|a0 l IH]; intros bs a; cbn [for_each].
  - intros _ []%elem_of_nil.
  - destruct (f a0) as [b0|] eqn:Ea; [|discriminate]. cbn [mbind result_bind].
    destruct (for_each f l) as [bs0|] eqn:El; [|discriminate].
    intros [= <-] [-> | Ha]%elem_of_cons.
    + exists b0. split; [left|exact Ea].
    + destruct (IH bs0 a eq_refl Ha) as (b & Hb & Hf).
      exists b. split; [by right|exact Hf].
Qed.

Lemma consume_filed tools steps : forall all seen seen',
  consume tools seen steps = OK seen' ->
  steps ⊆ all -> filed all seen -> filed all seen'.
Proof.
  induction steps as [|st steps IH]; intros all seen seen'; cbn [consume].
  - intros [= <-] _ H. exact H.
  - intros H Hsub Hf.
    destruct (bool_decide (tool_name st ∈ tools)); [|discriminate].
    assert (steps ⊆ all) as Hsub' by set_solver.
    destruct (seen !! idx st) as [st0|] eqn:E.
    + destruct (same_content st0 st); [|discriminate]. exact (IH _ _ _ H Hsub' Hf).
    + apply (IH _ _ _ H Hsub'). intros k st1.
      destruct (decide (idx st = k)) as [<-|Hne].
      * rewrite lookup_insert_eq. intros [= <-]. split; [reflexivity|set_solver].
      * rewrite lookup_insert_ne by exact Hne. apply Hf.
Qed.


(** The shape of a graph that the builder returns. *)
Lemma get_graph_dict_ok results tools g :
  get_graph_dict results tools = OK g ->
  exists seen entries,
    consume tools ∅ results = OK seen /\
    for_each (make_entry (dom seen)) (map_to_list seen) = OK entries /\
    nodes g = list_to_map entries.
Proof.
  unfold get_graph_dict.
  destruct (consume tools ∅ results) as [seen|]; [|discriminate].
  cbn [mbind result_bind].
  destruct (for_each _ (map_to_list seen)) as [entries|] eqn:E; [|discriminate].
  intros [= <-]. exists seen, entries. auto.
Qed.

(** A node of the graph is the node of a step of the plan, filed under the
    id of that step. *)
Lemma graph_node results tools g k node :
  get_graph_dict results tools = OK g ->
  nodes g !! k = Some node ->
  exists seen st numbers,
    consume tools ∅ results = OK seen /\
    seen !! k = Some st /\ idx st = k /\ st ∈ results /\
    reference_numbers (args st) = OK numbers /\
    node = {| id := idx st;
              task_tool_name := tool_name st;
              arguments := args st;
              dependencies := (list_to_set numbers ∩ dom seen) ∖ {[idx st]};
              task_thought := thought st |}.
Proof.
  intros (seen & entries & Hc & He & ->)%get_graph_dict_ok Hk.
  apply elem_of_list_to_map_2 in Hk.
  destruct (for_each_elem _ _ _ _ He Hk) as ([i st] & Hin & Hm).
  apply elem_of_map_to_list in Hin.
  unfold make_entry, make_node in Hm. cbn [fst snd] in Hm.
  destruct (reference_numbers (args st)) as [numbers|] eqn:Er; [|discriminate].
  injection Hm as <- <-.
  destruct (consume_filed tools results results ∅ seen Hc) with (k := i) (st := st)
    as [Hi Hst]; [set_solver| |assumption|].
  { intros ? ?. rewrite lookup_empty. discriminate. }
  exists seen, st, numbers. auto 10.
Qed.


(** The dependencies of a node are ids that [default_dependency_rule]
    accepts for the arguments of the node. *)
Lemma dependency_by_rule results tools g k node d :
  get_graph_dict results tools = OK g ->
  nodes g !! k = Some node ->
  d ∈ dependencies node ->
  default_dependency_rule d (arguments node) = OK true.
Proof.
  intros H Hk Hd.
  destruct (graph_node _ _ _ _ _ H Hk)
    as (seen & st & numbers & _ & _ & _ & _ & Hn & ->).
  cbn [dependencies arguments] in *. unfold default_dependency_rule.
  rewrite Hn. cbn [mbind result_bind]. f_equal. apply bool_decide_eq_true_2.
  apply elem_of_difference in Hd as [Hd _].
  apply elem_of_intersection in Hd as [Hd _]. by apply elem_of_list_to_set in Hd.
Qed.

(** C4.  No node of a graph returned by the plan parser lists its own id
    among its dependencies, whatever the text; a reference of a step to its
    own id is left out. *)
Theorem no_self_dependency self text g k node :
  LLMCompilerPlanParser.parse self text = OK g ->
  nodes g !! k = Some node ->
  id node = k /\ id node ∉ dependencies node.
Proof.
  unfold LLMCompilerPlanParser.parse. intros H Hk.
  destruct (step_records text) as [results|]; [|discriminate].
  cbn [mbind result_bind] in H.
  destruct (graph_node _ _ _ _ _ H Hk)
    as (seen & st & numbers & _ & _ & Hi & _ & _ & ->).
  cbn [id dependencies]. split; [exact Hi|].
  intros [_ Hn]%elem_of_difference. apply Hn. by apply elem_of_singleton.
Qed.

(** C4, an instance: step 1 refers to itself. *)
Lemma no_self_dependency_witness :
  exists g node,
    LLMCompilerPlanParser.parse {| LLMCompilerPlanParser.tools := ["search"] |}
      "1. search($1)" = OK g /\
    nodes g !! 1 = Some node /\ id node = 1 /\ id node ∉ dependencies node.
Proof.
  destruct (LLMCompilerPlanParser.parse
              {| LLMCompilerPlanParser.tools := ["search"] |} "1. search($1)")
    as [g|] eqn:E; [|vm_compute in E; discriminate E].
  destruct (nodes g !! 1) as [node|] eqn:E1.
  - exists g, node. split; [reflexivity|]. split; [exact E1|].
    exact (no_self_dependency _ _ g 1 node E E1).
  - vm_compute in E. injection E as <-. vm_compute in E1. discriminate E1.
Defined.



(** ** The step pattern and the end-of-plan marker *)

Lemma scan_no_match r a s :
  match_at r (String a s) = None -> scan r (String a s) 0 = scan r s 0.
Proof. intros H. cbn [scan]. rewrite H. reflexivity. Qed.

(** No step starts at a character that is neither [T], nor a line feed,
    nor a digit. *)
Lemma pattern_start a s :
  a <> "T"%char -> is_newline a = false -> is_digit a = false ->
  match_at pattern (String a s) = None.
Proof.
  intros HT Hn Hd. unfold match_at, pattern, THOUGHT_PATTERN, ACTION_PATTERN.
  cbn [ways String.prefix].
  destruct (ascii_dec "T" a) as [E|_]; [congruence|].
  cbn [mbind list_bind app fmap list_fmap fst snd star plus]. rewrite Hn.
  cbn [mbind list_bind app fmap list_fmap fst snd star plus]. rewrite Hd.
  reflexivity.
Qed.

Lemma scan_end_of_plan text :
  scan pattern (END_OF_PLAN ++ text) 0 = scan pattern text 0.
Proof.
  unfold END_OF_PLAN. cbn [append].
  repeat (rewrite scan_no_match by (apply pattern_start; [discriminate|reflexivity..])).
  reflexivity.
Qed.

Lemma scan_found r a s m :
  match_at r (String a s) = Some m ->
  scan r (String a s) 0 = m :: scan r s (String.length m.1 - 1).
Proof. intros H. cbn [scan]. rewrite H. reflexivity. Qed.

(** A step, a line feed and the marker: the scan reports the step and goes
    on behind the marker. *)
Lemma scan_across_end_of_plan after :
  scan pattern ("1. search(a)" ++ nl ++ END_OF_PLAN ++ after) 0
  = ("1. search(a)", [(4, "a"); (3, "search"); (2, "1")]%nat) :: scan pattern after 0.
Proof.
  cbv [String.append nl END_OF_PLAN].
  rewrite (scan_found _ _ _ ("1. search(a)", [(4, "a"); (3, "search"); (2, "1")]%nat))
    by (vm_compute; reflexivity).
  reflexivity.
Qed.

(** C3, as amended.  The plan parser gives the marker [<END_OF_PLAN>] no
    meaning of its own: it is no error, no step starts inside it, and the
    text that follows it is parsed as if the marker were absent.  So the
    steps after a marker are part of the result: behind a first step and
    the marker, every step of the rest of the text is still recorded. *)
Theorem end_of_plan_not_interpreted :
  (forall text, step_records (END_OF_PLAN ++ text) = step_records text) /\
  (forall self text,
     LLMCompilerPlanParser.parse self (END_OF_PLAN ++ text)
     = LLMCompilerPlanParser.parse self text) /\
  (forall after,
     step_records ("1. search(a)" ++ nl ++ END_OF_PLAN ++ after)
     = rest ← step_records after;
       OK ({| thought := ""; idx := 1; tool_name := "search"; args := "a" |} :: rest)).
Proof.
  assert (forall text, step_records (END_OF_PLAN ++ text) = step_records text) as H.
  { intros text. unfold step_records, findall. by rewrite scan_end_of_plan. }
  split; [exact H|]. split.
  - intros self text. unfold LLMCompilerPlanParser.parse. by rewrite H.
  - intros after. unfold step_records, findall.
    rewrite scan_across_end_of_plan. reflexivity.
Qed.

(** C3 as the specification states it fails: step 2, which follows the
    marker, has a node in the graph. *)
Lemma end_of_plan_does_not_stop :
  ~ stops_at_end_of_plan {| LLMCompilerPlanParser.tools := ["search"] |}
      ("1. search(a)" ++ nl) (nl ++ "2. search(b)").
Proof.
  intros H.
  destruct (LLMCompilerPlanParser.parse {| LLMCompilerPlanParser.tools := ["search"] |}
              (("1. search(a)" ++ nl) ++ END_OF_PLAN ++ nl ++ "2. search(b)"))
    as [g|] eqn:E; [|vm_compute in E; discriminate E].
  destruct (H g [ {| thought := ""; idx := 1; tool_name := "search"; args := "a" |} ] 2 E)
    as (st & Hst & Hidx).
  - vm_compute. reflexivity.
  - vm_compute in E. injection E as <-. vm_compute. eauto.
  - apply list_elem_of_singleton in Hst as ->. discriminate Hidx.
Qed.

(** ** Texts and ways *)

Lemma append_cons x (a b : string) : String x a ++ b = String x (a ++ b).
Proof. reflexivity. Qed.

Lemma app_assoc_string (a b c : string) : (a ++ b) ++ c = a ++ (b ++ c).
Proof. induction a as [|x a IH]; [reflexivity|]. by rewrite !append_cons, IH. Qed.

Lemma drop_app l : forall r, drop (String.length l) (l ++ r) = r.
Proof. induction l as [|a l IH]; intros r; [by destruct r|]. apply IH. Qed.

Lemma star_split cls s p : p ∈ star cls s -> s = p.1 ++ p.2.
Proof.
  revert p. induction s as [|a s IH]; intros p; cbn [star].
  - intros ->%list_elem_of_singleton. reflexivity.
  - destruct (cls a).
    + rewrite elem_of_app, list_elem_of_fmap, list_elem_of_singleton.
      intros [(q & -> & Hq) | ->]; [|reflexivity].
      cbn [shift fst snd]. rewrite append_cons. f_equal. exact (IH q Hq).
    + intros ->%list_elem_of_singleton. reflexivity.
Qed.

Lemma plus_split cls s p :
  p ∈ plus cls s -> exists a t, s = String a t /\ cls a = true /\ s = p.1 ++ p.2.
Proof.
  destruct s as [|a s]; cbn [plus]; [intros []%elem_of_nil|].
  destruct (cls a) eqn:Ha; [|intros []%elem_of_nil].
  intros (q & -> & Hq)%list_elem_of_fmap. exists a, s.
  split; [reflexivity|]. split; [exact Ha|].
  cbn [shift fst snd]. rewrite append_cons. f_equal. exact (star_split _ _ _ Hq).
Qed.

(** A way splits the text into what it matched and what remains. *)
Lemma ways_split r : forall n s c (w : way),
  w ∈ ways r n s c -> s = w.1.1 ++ w.1.2.
Proof.
  induction r as [l|cls|cls|r1 IH1 r2 IH2|r IH|r IH]; intros n s c w Hw; cbn [ways] in Hw.
  - destruct (String.prefix l s) eqn:E; [|by apply elem_of_nil in Hw].
    apply list_elem_of_singleton in Hw as ->. cbn.
    apply startswith_app in E as [t ->]. by rewrite drop_app.
  - apply list_elem_of_fmap in Hw as (p & -> & Hp). exact (star_split _ _ _ Hp).
  - apply list_elem_of_fmap in Hw as (p & -> & Hp).
    by destruct (plus_split _ _ _ Hp) as (_ & _ & _ & _ & ?).
  - apply list_elem_of_bind in Hw as (w1 & Hw & H1).
    apply list_elem_of_fmap in Hw as (w2 & -> & H2). cbn.
    rewrite app_assoc_string, <- (IH2 _ _ _ _ H2). exact (IH1 _ _ _ _ H1).
  - apply elem_of_app in Hw as [Hw | ->%list_elem_of_singleton]; [|reflexivity].
    exact (IH _ _ _ _ Hw).
  - apply list_elem_of_fmap in Hw as (w' & -> & Hw'). exact (IH _ _ _ _ Hw').
Qed.

Lemma ways_seq_assoc r1 r2 r3 n s c :
  ways (r1 >> r2 >> r3) n s c = ways ((r1 >> r2) >> r3) n s c.
Proof.
  cbn [ways ngroups]. induction (ways r1 n s c) as [|w1 l1 IH]; [reflexivity|].
  rewrite !bind_cons, bind_app, IH. f_equal. clear IH.
  induction (ways r2 (n + ngroups r1) w1.1.2 w1.2) as [|w2 l2 IH]; [reflexivity|].
  rewrite bind_cons, fmap_app, fmap_cons, bind_cons, IH. f_equal. clear IH.
  cbn [fst snd]. rewrite Nat.add_assoc, <- list_fmap_compose.
  apply list_fmap_ext. intros _ w3 _. cbn. by rewrite app_assoc_string.
Qed.

Lemma all_in_app cls a b : all_in cls (a ++ b) = all_in cls a && all_in cls b.
Proof.
  induction a as [|x a IH]; [reflexivity|].
  rewrite append_cons. cbn [all_in]. by rewrite IH, andb_assoc.
Qed.


Lemma ways_opt r n s c :
  ways (Opt r) n s c = (ways r n s c ++ [("", s, c)])%list.
Proof. reflexivity. Qed.

(** ** What every step record satisfies *)

Lemma digit_value_range c : is_digit c = true -> 0 <= Py.digit_value c <= 9.
Proof.
  unfold is_digit, in_range, Py.digit_value. intros H.
  apply andb_prop in H as [H1 H2].
  apply N.leb_le in H1, H2. lia.
Qed.

Lemma int_go_nonneg s : forall acc z, 0 <= acc -> Py.int_go acc s = OK z -> 0 <= z.
Proof.
  induction s as [|a s IH]; intros acc z Hacc; cbn [Py.int_go].
  - intros [= <-]. exact Hacc.
  - destruct (is_digit a) eqn:Ha; [|discriminate].
    apply IH. pose proof (digit_value_range a Ha). lia.
Qed.

Lemma int_nonneg s z : Py.int s = OK z -> 0 <= z.
Proof.
  unfold Py.int. destruct s; [discriminate|].
  destruct (_ <=? _)%nat; [|discriminate]. apply int_go_nonneg. lia.
Qed.

(** A group around [cls*] captures a text of the class. *)
Lemma ways_group_star cls n s c (w : way) :
  w ∈ ways (Group (Star cls)) n s c ->
  exists m, lookup_group w.2 (S n) = Some m /\ all_in cls m = true.
Proof.
  cbn [ways]. intros (w' & -> & Hw')%list_elem_of_fmap.
  apply list_elem_of_fmap in Hw' as (p & -> & Hp).
  exists p.1. cbn [fst snd lookup_group]. rewrite Nat.eqb_refl.
  split; [reflexivity|]. exact (star_class cls s p Hp).
Qed.

(** The groups of a match of the step pattern: a thought and arguments
    without a line feed, a tool name made of word characters. *)
Lemma pattern_groups s m :
  match_at pattern s = Some m ->
  all_in not_newline (group m.2 1) = true /\
  (group m.2 3 <> "" /\ all_in is_word (group m.2 3) = true) /\
  all_in not_newline (group m.2 4) = true.
Proof.
  intros (w & Hw & ->)%match_at_way.
  apply ways_seq in Hw as (w1 & w2 & H1 & H2 & ->). cbn [snd].
  assert (all_in not_newline (group w1.2 1) = true) as Hth.
  { rewrite ways_opt in H1. apply elem_of_app in H1 as [H1 | ->%list_elem_of_singleton];
      [|reflexivity].
    apply ways_seq in H1 as (u1 & u2 & Hu1 & Hu2 & ->).
    apply (ways_frame _ _ _ _ _ 1%nat) in Hu2; [|cbn; lia].
    unfold THOUGHT_PATTERN in Hu1.
    apply ways_seq in Hu1 as (v1 & v2 & _ & Hv2 & ->).
    apply ways_group_star in Hv2 as (t & Ht & Hall).
    cbn in Ht, Hu2. cbn [snd]. unfold group. rewrite Hu2, Ht. exact Hall. }
  pose proof (ways_frame _ _ _ _ _ 1%nat H2) as F1.
  unfold ACTION_PATTERN in H2.
  apply ways_seq in H2 as (w3 & w4 & _ & H4 & ->).
  apply ways_seq in H4 as (w5 & w6 & _ & H6 & ->).
  apply ways_seq in H6 as (w7 & w8 & _ & H8 & ->).
  apply ways_seq in H8 as (w9 & w10 & H9 & H10 & ->).
  pose proof (ways_frame _ _ _ _ _ 3%nat H10) as F3.
  apply ways_group_plus in H9 as (tool & Htool & Hne & Hword).
  apply ways_seq in H10 as (w11 & w12 & _ & H12 & ->).
  apply ways_seq in H12 as (w13 & w14 & H13 & H14 & ->).
  apply (ways_frame _ _ _ _ _ 4%nat) in H14; [|cbn; lia].
  apply ways_group_star in H13 as (a & Ha & Hall).
  cbn in Htool, F3, Ha, H14, F1. cbn [snd] in *. unfold group.
  rewrite F1 by lia. rewrite F3 by lia. rewrite H14, Htool, Ha.
  split; [exact Hth|]. split; [split; assumption|exact Hall].
Qed.

(** X1.  Whatever the plan text, every step record has a non-negative id,
    a non-empty tool name made of word characters, and arguments and a
    thought that hold no line feed. *)
Theorem step_record_shape text steps st :
  step_records text = OK steps ->
  st ∈ steps ->
  0 <= idx st /\
  tool_name st <> "" /\ all_in is_word (tool_name st) = true /\
  all_in not_newline (args st) = true /\
  all_in not_newline (thought st) = true.
Proof.
  unfold step_records, findall. intros H Hst.
  destruct (for_each_elem _ _ _ _ H Hst) as (x & Hx & Hp).
  apply list_elem_of_fmap in Hx as (m & -> & Hm).
  apply scan_match in Hm as [s0 Hm].
  apply pattern_groups in Hm as (Hth & [Hne Hw] & Ha).
  change (item pattern m) with (group m.2 <$> seq 1 5) in Hp.
  cbn [seq fmap list_fmap parse_result_of_match] in Hp.
  destruct (Py.int (group m.2 2)) as [z|] eqn:Ez; [|discriminate].
  injection Hp as <-. cbn [idx tool_name args thought].
  split; [exact (int_nonneg _ _ Ez)|]. auto.
Qed.

(** X1, an instance: the two steps of a small plan. *)
Lemma step_record_shape_witness :
  0 <= 12 /\ "go_1" <> "" /\ all_in is_word "go_1" = true /\
  all_in not_newline "f($1), 2" = true /\ all_in not_newline "then" = true.
Proof.
  apply (step_record_shape
           ("1. search(a)" ++ nl ++ "Thought: then" ++ nl ++ "12. go_1(f($1), 2)")
           [ {| thought := ""; idx := 1; tool_name := "search"; args := "a" |};
             {| thought := "then"; idx := 12; tool_name := "go_1"; args := "f($1), 2" |} ]
           {| thought := "then"; idx := 12; tool_name := "go_1"; args := "f($1), 2" |}).
  - vm_compute. reflexivity.
  - right. left.
Defined.

(** ** The first way of a match *)

Lemma star_stop cls s : stops cls s = true -> star cls s = [("", s)].
Proof.
  destruct s as [|c s]; [reflexivity|]. cbn [stops star].
  intros H. apply negb_true_iff in H. rewrite H. reflexivity.
Qed.

(** A greedy repetition first takes all it can. *)
Lemma star_head cls a : forall post,
  all_in cls a = true -> stops cls post = true ->
  exists l, star cls (a ++ post) = (a, post) :: l.
Proof.
  induction a as [|x a IH]; intros post Ha Hp.
  - exists []. exact (star_stop cls post Hp).
  - cbn [all_in] in Ha. apply andb_prop in Ha as [Hx Ha].
    destruct (IH post Ha Hp) as [l Hl].
    rewrite append_cons. cbn [star]. rewrite Hx, Hl. cbn [fmap list_fmap app shift fst snd].
    eauto.
Qed.

Lemma plus_head cls a post :
  a <> "" -> all_in cls a = true -> stops cls post = true ->
  exists l, plus cls (a ++ post) = (a, post) :: l.
Proof.
  destruct a as [|x a]; [congruence|]. intros _ Ha Hp.
  cbn [all_in] in Ha. apply andb_prop in Ha as [Hx Ha].
  destruct (star_head cls a post Ha Hp) as [l Hl].
  rewrite append_cons. cbn [plus]. rewrite Hx, Hl. cbn [fmap list_fmap shift fst snd].
  eauto.
Qed.

(** Behind a text of the class and one more character of it, the second
    way of a greedy repetition gives that character back. *)
Lemma star_head2 cls a x post :
  all_in cls a = true -> cls x = true -> stops cls post = true ->
  exists l, star cls (a ++ String x post)
            = (a ++ String x "", post) :: (a, String x post) :: l.
Proof.
  intros Ha Hx Hp. induction a as [|y a IH].
  - exists []. change ("" ++ String x post) with (String x post).
    cbn [star]. rewrite Hx, (star_stop cls post Hp). reflexivity.
  - cbn [all_in] in Ha. apply andb_prop in Ha as [Hy Ha].
    destruct (IH Ha) as [l Hl].
    rewrite !append_cons. cbn [star]. rewrite Hy, Hl.
    cbn [fmap list_fmap app shift fst snd]. eauto.
Qed.

Lemma ways_seq_cons r1 r2 n s c (w1 w2 : way) l1 l2 :
  ways r1 n s c = w1 :: l1 ->
  ways r2 (n + ngroups r1)%nat w1.1.2 w1.2 = w2 :: l2 ->
  exists l, ways (r1 >> r2) n s c = join_ways w1 w2 :: l.
Proof.
  intros H1 H2. cbn [ways]. rewrite H1, bind_cons, H2.
  cbn [fmap list_fmap app]. eauto.
Qed.

Lemma ways_seq_second r1 r2 n s c (w0 w1 w2 : way) l1 l2 :
  ways r1 n s c = w0 :: w1 :: l1 ->
  ways r2 (n + ngroups r1)%nat w0.1.2 w0.2 = [] ->
  ways r2 (n + ngroups r1)%nat w1.1.2 w1.2 = w2 :: l2 ->
  exists l, ways (r1 >> r2) n s c = join_ways w1 w2 :: l.
Proof.
  intros H1 H0 H2. cbn [ways]. rewrite H1, !bind_cons, H0, H2.
  cbn [fmap list_fmap app]. eauto.
Qed.

Lemma ways_lit l s c n : ways (Lit l) n (l ++ s) c = [(l, s, c)].
Proof.
  cbn [ways].
  assert (String.prefix l (l ++ s) = true) as ->.
  { induction l as [|a l IH]; [by destruct s|].
    rewrite append_cons. cbn [String.prefix]. destruct (ascii_dec a a); [exact IH|done]. }
  by rewrite drop_app.
Qed.

Lemma ways_lit_fail l a s c n b l' :
  l = String b l' -> a <> b -> ways (Lit l) n (String a s) c = [].
Proof.
  intros -> H. cbn [ways String.prefix].
  destruct (ascii_dec b a); [congruence|reflexivity].
Qed.

Lemma ways_group r n s c (w : way) l :
  ways r (S n) s c = w :: l ->
  exists l', ways (Group r) n s c = (w.1.1, w.1.2, (S n, w.1.1) :: w.2) :: l'.
Proof. intros H. cbn [ways]. rewrite H. cbn [fmap list_fmap]. eauto. Qed.

(** ** A well-formed step *)


Lemma ways_seq_nil r1 r2 n s c : ways r1 n s c = [] -> ways (r1 >> r2) n s c = [].
Proof. intros H. cbn [ways]. by rewrite H. Qed.

Lemma ways_group_plus_head cls n s c p l :
  plus cls s = p :: l ->
  exists l', ways (Group (Plus cls)) n s c = (p.1, p.2, (S n, p.1) :: c) :: l'.
Proof. intros H. cbn [ways]. rewrite H. cbn [fmap list_fmap fst snd]. eauto. Qed.

Lemma ways_group_star_head2 cls n s c p0 p1 l :
  star cls s = p0 :: p1 :: l ->
  exists l', ways (Group (Star cls)) n s c
             = (p0.1, p0.2, (S n, p0.1) :: c) :: (p1.1, p1.2, (S n, p1.1) :: c) :: l'.
Proof. intros H. cbn [ways]. rewrite H. cbn [fmap list_fmap fst snd]. eauto. Qed.

Lemma ways_star_head cls n s c p l :
  star cls s = p :: l -> exists l', ways (Star cls) n s c = (p.1, p.2, c) :: l'.
Proof. intros H. cbn [ways]. rewrite H. cbn [fmap list_fmap]. eauto. Qed.

(** Behind a quiet text the optional tag matches nothing. *)
Lemma tail_quiet n post c :
  quiet post = true ->
  ways (Opt (Group (Star is_space >> Lit "#" >> Plus is_word >> Lit nl))) n post c
  = [("", post, c)].
Proof.
  intros H. rewrite ways_opt.
  assert (ways (Group (Star is_space >> Lit "#" >> Plus is_word >> Lit nl)) n post c = [])
    as ->; [|reflexivity].
  destruct post as [|x rest]; [reflexivity|]. cbn [quiet] in H.
  apply andb_prop in H as [Hx H]. apply Ascii.eqb_eq in Hx as ->.
  destruct rest as [|d rest]; [reflexivity|].
  apply andb_prop in H as [Hd Hh]. apply negb_true_iff in Hd, Hh.
  apply Ascii.eqb_neq in Hh.
  cbn [ways star]. change (is_space LF) with true. cbv iota. rewrite Hd.
  cbn [fmap list_fmap app mbind list_bind shift fst snd String.prefix].
  destruct (ascii_dec "#" d) as [E|_]; [congruence|]. reflexivity.
Qed.

Lemma quiet_stops post : quiet post = true -> stops not_newline post = true.
Proof.
  destruct post as [|x rest]; [reflexivity|]. cbn [quiet stops].
  intros [->%Ascii.eqb_eq _]%andb_prop. reflexivity.
Qed.

Lemma stops_no_paren n post c :
  stops not_newline post = true -> ways (Lit ")") n post c = [].
Proof.
  destruct post as [|x rest]; [reflexivity|]. cbn [stops]. intros H.
  apply (ways_lit_fail _ _ _ _ _ ")" ""); [reflexivity|]. intros ->. discriminate H.
Qed.

Lemma quiet_ends_step post : quiet post = true -> ends_step post.
Proof.
  intros H. split; [exact (quiet_stops post H)|].
  intros n c. exact (tail_quiet n post c H).
Qed.

Section Step.
Variables (a post : string).
Hypothesis Ha : all_in not_newline a = true.
Hypothesis Hpost : ends_step post.

Lemma close_head n c :
  exists l, ways (Lit ")" >> TAG) n (")" ++ post) c = (")", post, c) :: l.
Proof.
  destruct (ways_seq_cons (Lit ")") TAG n (")" ++ post) c (")", post, c) ("", post, c) [] [])
    as [l Hl].
  - apply ways_lit.
  - apply (proj2 Hpost).
  - exists l. exact Hl.
Qed.

Lemma args_head n c :
  exists l, ways (Group (Star not_newline) >> Lit ")" >> TAG) n (a ++ ")" ++ post) c
            = (a ++ ")", post, (S n, a) :: c) :: l.
Proof.
  destruct (star_head2 not_newline a ")" post Ha eq_refl (proj1 Hpost)) as [l0 H0].
  destruct (ways_group_star_head2 _ n _ c _ _ _ H0) as [l1 H1].
  destruct (close_head (n + 1) ((S n, a) :: c)) as [l2 H2].
  cbn [fst snd] in H1.
  assert (ways (Lit ")" >> TAG) (n + ngroups (Group (Star not_newline)))
            post ((S n, (a ++ ")")%string) :: c) = []) as Hfail
    by apply ways_seq_nil, stops_no_paren, (proj1 Hpost).
  destruct (ways_seq_second _ _ _ _ _ _ _ _ _ _ H1 Hfail H2) as [l Hl].
  exists l. exact Hl.
Qed.

End Step.

(** The action pattern from its opening parenthesis on is the same for
    every step; what differs is the match of the arguments and of what
    follows them, taken here as a hypothesis: the text [body] is matched
    whole and the captures [k n c] are added. *)
Section StepBody.
Variables (num tool body after : string) (k : nat -> captures -> captures).
Hypothesis Hnum : numeral num.
Hypothesis Htool : tool <> "" /\ all_in is_word tool = true.
Hypothesis Hbody : forall n c,
  exists l, ways (Group (Star not_newline) >> Lit ")" >> TAG) n (body ++ after) c
            = (body, after, k n c) :: l.

Lemma open_head n c :
  exists l, ways (Lit "(" >> Group (Star not_newline) >> Lit ")" >> TAG) n
              ("(" ++ body ++ after) c
            = ("(" ++ body, after, k n c) :: l.
Proof.
  destruct (Hbody (n + 0) c) as [l2 H2].
  destruct (ways_seq_cons (Lit "(") _ n _ c _ _ [] _ (ways_lit _ _ _ _) H2) as [l Hl].
  exists l. rewrite Hl, Nat.add_0_r. reflexivity.
Qed.

Lemma tool_head n c :
  exists l, ways (Group (Plus is_word) >> Lit "(" >> Group (Star not_newline)
                  >> Lit ")" >> TAG) n (tool ++ "(" ++ body ++ after) c
            = (tool ++ "(" ++ body, after, k (S n) ((S n, tool) :: c)) :: l.
Proof.
  destruct Htool as [Hne Hw].
  destruct (plus_head is_word tool ("(" ++ body ++ after) Hne Hw eq_refl) as [l0 H0].
  destruct (ways_group_plus_head _ n _ c _ _ H0) as [l1 H1].
  destruct (open_head (n + 1) ((S n, tool) :: c)) as [l2 H2].
  destruct (ways_seq_cons _ _ _ _ _ _ _ _ _ H1 H2) as [l Hl].
  exists l. rewrite Hl. unfold join_ways. cbn [fst snd].
  by replace (n + 1)%nat with (S n) by lia.
Qed.

Lemma dot_head n c :
  exists l, ways (Lit ". " >> Group (Plus is_word) >> Lit "(" >> Group (Star not_newline)
                  >> Lit ")" >> TAG) n (". " ++ tool ++ "(" ++ body ++ after) c
            = (". " ++ tool ++ "(" ++ body, after, k (S n) ((S n, tool) :: c)) :: l.
Proof.
  destruct (tool_head (n + 0) c) as [l2 H2].
  destruct (ways_seq_cons (Lit ". ") _ n _ c _ _ [] _ (ways_lit _ _ _ _) H2) as [l Hl].
  exists l. rewrite Hl, !Nat.add_0_r. reflexivity.
Qed.

Lemma numeral_stops s rest : numeral s -> stops is_newline (s ++ rest) = true.
Proof.
  intros [Hne Hd]. destruct s as [|d s]; [done|]. rewrite append_cons. cbn [stops].
  cbn [all_in] in Hd. apply andb_prop in Hd as [Hd _]. apply negb_true_iff.
  unfold is_digit, in_range in Hd. unfold is_newline.
  apply andb_prop in Hd as [H1 H2]. apply N.leb_le in H1. apply N.eqb_neq. lia.
Qed.

Lemma num_head n c :
  exists l, ways (Group (Plus is_digit) >> Lit ". " >> Group (Plus is_word) >> Lit "("
                  >> Group (Star not_newline) >> Lit ")" >> TAG) n
              (num ++ ". " ++ tool ++ "(" ++ body ++ after) c
            = (num ++ ". " ++ tool ++ "(" ++ body, after,
               k (S (S n)) ((S (S n), tool) :: (S n, num) :: c)) :: l.
Proof.
  destruct Hnum as [Hne Hd].
  destruct (plus_head is_digit num (". " ++ tool ++ "(" ++ body ++ after) Hne Hd eq_refl)
    as [l0 H0].
  destruct (ways_group_plus_head _ n _ c _ _ H0) as [l1 H1].
  destruct (dot_head (n + 1) ((S n, num) :: c)) as [l2 H2].
  destruct (ways_seq_cons _ _ _ _ _ _ _ _ _ H1 H2) as [l Hl].
  exists l. rewrite Hl. unfold join_ways. cbn [fst snd].
  by replace (n + 1)%nat with (S n) by lia.
Qed.

(** The first way of the action pattern through a step that some line
    feeds precede: it takes the step whole. *)
Lemma body_head pfx n c :
  all_in is_newline pfx = true ->
  exists l, ways ACTION_PATTERN n (pfx ++ num ++ ". " ++ tool ++ "(" ++ body ++ after) c
            = (pfx ++ num ++ ". " ++ tool ++ "(" ++ body, after,
               k (S (S n)) ((S (S n), tool) :: (S n, num) :: c)) :: l.
Proof.
  intros Hpfx.
  destruct (star_head is_newline pfx _ Hpfx
              (numeral_stops num (". " ++ tool ++ "(" ++ body ++ after) Hnum))
    as [l0 H0].
  destruct (ways_star_head _ n _ c _ _ H0) as [l1 H1].
  destruct (num_head (n + 0) c) as [l2 H2].
  destruct (ways_seq_cons _ _ _ _ _ _ _ _ _ H1 H2) as [l Hl].
  exists l. unfold ACTION_PATTERN. fold TAG. rewrite Hl.
  unfold join_ways. cbn [fst snd]. by rewrite !Nat.add_0_r.
Qed.
End StepBody.

(** The first way of the action pattern through a well-formed step that
    some line feeds precede: it takes the step whole. *)
Lemma action_head num tool a post pfx n c :
  numeral num -> tool <> "" /\ all_in is_word tool = true ->
  all_in not_newline a = true -> ends_step post ->
  all_in is_newline pfx = true ->
  exists l, ways ACTION_PATTERN n (pfx ++ step_line num tool a ++ post) c
            = (pfx ++ step_line num tool a, post,
               (S (S (S n)), a) :: (S (S n), tool) :: (S n, num) :: c) :: l.
Proof.
  intros Hnum Htool Ha Hpost Hpfx.
  assert (step_line num tool a ++ post
          = num ++ ". " ++ tool ++ "(" ++ (a ++ ")") ++ post) as E.
  { unfold step_line. by rewrite !app_assoc_string. }
  rewrite E.
  apply (body_head num tool (a ++ ")") post (fun n c => (S n, a) :: c) Hnum Htool);
    [|exact Hpfx].
  intros n0 c0. rewrite app_assoc_string. by apply args_head.
Qed.

Lemma thought_absent s :
  match s with String c _ => c <> "T"%char | EmptyString => True end ->
  ways (Opt (THOUGHT_PATTERN >> Lit nl)) 0 s [] = [("", s, [])].
Proof.
  intros H. rewrite ways_opt.
  assert (ways (THOUGHT_PATTERN >> Lit nl) 0 s [] = []) as ->; [|reflexivity].
  apply ways_seq_nil, ways_seq_nil. destruct s as [|c s]; [reflexivity|].
  apply (ways_lit_fail _ _ _ _ _ "T" "hought: "); [reflexivity|exact H].
Qed.

Lemma ways_group_star_head cls n s c p l :
  star cls s = p :: l ->
  exists l', ways (Group (Star cls)) n s c = (p.1, p.2, (S n, p.1) :: c) :: l'.
Proof. intros H. cbn [ways]. rewrite H. cbn [fmap list_fmap fst snd]. eauto. Qed.

Lemma thought_head t rest :
  all_in not_newline t = true ->
  exists l, ways (Opt (THOUGHT_PATTERN >> Lit nl)) 0 ("Thought: " ++ t ++ nl ++ rest) []
            = ("Thought: " ++ t ++ nl, rest, [(1%nat, t)]) :: l.
Proof.
  intros Ht. rewrite ways_opt.
  destruct (star_head not_newline t (nl ++ rest) Ht eq_refl) as [l0 H0].
  destruct (ways_group_star_head _ 0 _ [] _ _ H0) as [l1 H1].
  destruct (ways_seq_cons (Lit "Thought: ") _ 0 _ [] _ _ [] _ (ways_lit _ _ _ _) H1)
    as [l2 H2].
  destruct (ways_seq_cons _ (Lit nl) _ _ _ _ (nl, rest, [(1%nat, t)]) _ [] H2) as [l3 H3].
  { apply (ways_lit nl). }
  unfold THOUGHT_PATTERN. rewrite H3. unfold join_ways. cbn [fst snd app].
  rewrite !app_assoc_string. eauto.
Qed.

Lemma first_way r s (w : way) l : ways r 0 s [] = w :: l -> match_at r s = Some (w.1.1, w.2).
Proof. intros H. unfold match_at. by rewrite H. Qed.

Lemma digit_facts d :
  is_digit d = true ->
  d <> "T"%char /\ is_space d = false /\ Ascii.eqb d "#" = false /\ is_newline d = false.
Proof.
  intros H. split; [intros ->; discriminate H|].
  split; [|split; [apply Ascii.eqb_neq; intros ->; discriminate H|]];
    unfold is_digit, in_range in H; apply andb_prop in H as [H1 H2];
    apply N.leb_le in H1, H2.
  - unfold is_space, in_range.
    repeat (apply orb_false_iff; split);
      first [apply andb_false_iff; left; apply N.leb_gt; lia
            |apply andb_false_iff; right; apply N.leb_gt; lia
            |apply N.eqb_neq; lia].
  - unfold is_newline. apply N.eqb_neq. lia.
Qed.

Lemma match_step pfx num tool a post :
  pfx = "" \/ pfx = nl ->
  well_formed num tool a -> ends_step post ->
  match_at pattern (pfx ++ step_line num tool a ++ post)
  = Some (pfx ++ step_line num tool a, [(4, a); (3, tool); (2, num)]%nat).
Proof.
  intros Hpfx (Hnum & Htool & Ha) Hpost.
  assert (all_in is_newline pfx = true) as Hnl by (by destruct Hpfx as [-> | ->]).
  destruct (action_head num tool a post pfx 1 [] Hnum Htool Ha Hpost Hnl) as [l2 H2].
  assert (ways (Opt (THOUGHT_PATTERN >> Lit nl)) 0 (pfx ++ step_line num tool a ++ post) []
          = [("", pfx ++ step_line num tool a ++ post, [])]) as H1.
  { apply thought_absent. destruct Hpfx as [-> | ->]; [|done].
    destruct Hnum as [Hne Hd]. destruct num as [|d num]; [done|].
    cbn [all_in] in Hd. apply andb_prop in Hd as [Hd _].
    apply (digit_facts d Hd). }
  destruct (ways_seq_cons _ ACTION_PATTERN _ _ _ _ _ _ _ H1 H2) as [l Hl].
  unfold pattern. exact (first_way _ _ _ _ Hl).
Qed.

Lemma match_thought_step t num tool a post :
  all_in not_newline t = true ->
  well_formed num tool a -> quiet post = true ->
  match_at pattern ("Thought: " ++ t ++ nl ++ step_line num tool a ++ post)
  = Some ("Thought: " ++ t ++ nl ++ step_line num tool a,
          [(4, a); (3, tool); (2, num); (1, t)]%nat).
Proof.
  intros Ht (Hnum & Htool & Ha) Hpost.
  destruct (thought_head t (step_line num tool a ++ post) Ht) as [l1 H1].
  destruct (action_head num tool a post "" 1 [(1%nat, t)] Hnum Htool Ha
              (quiet_ends_step _ Hpost) eq_refl)
    as [l2 H2].
  destruct (ways_seq_cons _ ACTION_PATTERN _ _ _ _ _ _ _ H1 H2) as [l Hl].
  unfold pattern. rewrite (first_way _ _ _ _ Hl). unfold join_ways. cbn [fst snd].
  by rewrite !app_assoc_string.
Qed.

Lemma scan_skip r x post : scan r (x ++ post) (String.length x) = scan r post 0.
Proof. induction x as [|c x IH]; [reflexivity|]. exact IH. Qed.

(** The scan takes a match and goes on behind it. *)
Lemma scan_at_match r x post c :
  x <> "" -> match_at r (x ++ post) = Some (x, c) ->
  scan r (x ++ post) 0 = (x, c) :: scan r post 0.
Proof.
  intros Hx H. destruct x as [|a x]; [done|]. rewrite append_cons in *.
  rewrite (scan_found _ _ _ _ H). cbn [fst String.length]. f_equal.
  rewrite Nat.sub_1_r. apply scan_skip.
Qed.

Lemma step_line_nonempty num tool a : step_line num tool a <> "".
Proof. unfold step_line. destruct num; done. Qed.

Lemma quiet_more l : Forall entry_ok l -> quiet (more_entries l) = true.
Proof.
  destruct 1 as [|e l [Ht (Hnum & _)] _]; [reflexivity|].
  cbn [more_entries]. unfold entry_text.
  destruct (e_thought e) as [t|]; [reflexivity|].
  destruct Hnum as [Hne Hd]. unfold step_line. destruct (e_num e) as [|d num]; [done|].
  cbn [all_in] in Hd. apply andb_prop in Hd as [Hd _].
  destruct (digit_facts d Hd) as (_ & Hs & Hh & _).
  change (quiet (String LF (String d (num ++ ". " ++ e_tool e ++ "(" ++ e_args e ++ ")"
                                      ++ more_entries l)))
          = true).
  cbn [quiet]. rewrite Hs, Hh. reflexivity.
Qed.

Lemma for_each_fmap {A B C} (f : B -> result C) (g : A -> B) l :
  for_each f (g <$> l) = for_each (fun a => f (g a)) l.
Proof. induction l as [|a l IH]; [reflexivity|]. cbn [fmap list_fmap for_each]. by rewrite <- IH. Qed.

Lemma append_nonempty (x y : string) : x <> "" -> x ++ y <> "".
Proof. destruct x; done. Qed.

Lemma scan_thought_step t num tool a post :
  all_in not_newline t = true ->
  well_formed num tool a -> quiet post = true ->
  scan pattern (("Thought: " ++ t ++ nl ++ step_line num tool a) ++ post) 0
  = ("Thought: " ++ t ++ nl ++ step_line num tool a,
     [(4, a); (3, tool); (2, num); (1, t)]%nat) :: scan pattern post 0.
Proof.
  intros Ht Hwf Hpost. apply scan_at_match; [by apply append_nonempty|].
  rewrite !app_assoc_string. by apply match_thought_step.
Qed.

Lemma scan_step pfx num tool a post :
  pfx = "" \/ pfx = nl ->
  well_formed num tool a -> ends_step post ->
  scan pattern ((pfx ++ step_line num tool a) ++ post) 0
  = (pfx ++ step_line num tool a, [(4, a); (3, tool); (2, num)]%nat)
    :: scan pattern post 0.
Proof.
  intros Hpfx Hwf Hpost. apply scan_at_match.
  - destruct Hpfx as [-> | ->]; [apply step_line_nonempty|done].
  - rewrite app_assoc_string. by apply match_step.
Qed.

Lemma scan_entry e post :
  entry_ok e -> quiet post = true ->
  item pattern <$> scan pattern (entry_text e ++ post) 0
  = entry_groups e :: (item pattern <$> scan pattern post 0).
Proof.
  intros [Ht Hwf] Hpost. unfold entry_text, entry_groups.
  destruct (e_thought e) as [t|].
  - by rewrite scan_thought_step.
  - change (step_line ?n ?t ?a) with ("" ++ step_line n t a).
    rewrite scan_step by auto using quiet_ends_step. reflexivity.
Qed.

Lemma scan_more l :
  Forall entry_ok l ->
  item pattern <$> scan pattern (more_entries l) 0 = entry_groups <$> l.
Proof.
  induction 1 as [|e l He Hl IH]; [reflexivity|].
  cbn [more_entries fmap list_fmap]. rewrite <- IH.
  pose proof (quiet_more l Hl) as Hq. destruct He as [Ht Hwf].
  unfold entry_text, entry_groups in *. destruct (e_thought e) as [t|].
  - change (nl ++ ?x) with (String LF x).
    rewrite scan_no_match by reflexivity.
    by rewrite scan_thought_step.
  - rewrite <- app_assoc_string.
    rewrite scan_step by auto using quiet_ends_step. reflexivity.
Qed.

(** X2.  Round trip of the step tokenizer.  A plan written one entry per
    line, each entry a step [num. tool(args)] with an optional thought line
    before it, is read back entry by entry: the thought, the numeral, the
    tool name and the arguments of each step, in order.  The arguments may
    hold parentheses and anything else but a line feed. *)
Theorem plan_round_trip l :
  Forall entry_ok l ->
  findall pattern (plan_text l) = entry_groups <$> l /\
  step_records (plan_text l) = for_each entry_record l.
Proof.
  intros H.
  assert (findall pattern (plan_text l) = entry_groups <$> l) as E.
  { unfold findall. destruct H as [|e l He Hl]; [reflexivity|].
    cbn [plan_text]. rewrite (scan_entry e _ He (quiet_more l Hl)), (scan_more l Hl).
    reflexivity. }
  split; [exact E|]. unfold step_records. rewrite E, for_each_fmap. reflexivity.
Qed.

(** X2, an instance: nested parentheses and a thought. *)
Lemma plan_round_trip_witness :
  step_records ("1. search(f(a), (b))" ++ nl ++ "Thought: join them" ++ nl ++ "02. join($1)")
  = OK [ {| thought := ""; idx := 1; tool_name := "search"; args := "f(a), (b)" |};
         {| thought := "join them"; idx := 2; tool_name := "join"; args := "$1" |} ].
Proof.
  apply (proj2 (plan_round_trip
    [ {| e_thought := None; e_num := "1"; e_tool := "search"; e_args := "f(a), (b)" |};
      {| e_thought := Some "join them"; e_num := "02"; e_tool := "join"; e_args := "$1" |} ]
    ltac:(repeat constructor; done))).
Defined.

(** ** More on the join parser *)

Lemma substring_none a s : String.substring a 0 s = "".
Proof.
  revert a. induction s as [|c s IH]; intros [|a]; try reflexivity. apply IH.
Qed.

Lemma all_in_substring cls s : forall a n,
  all_in cls s = true -> all_in cls (String.substring a n s) = true.
Proof.
  induction s as [|c s IH]; intros a n H.
  - by destruct a, n.
  - cbn [all_in] in H. apply andb_prop in H as [Hc H].
    destruct a as [|a]; [destruct n as [|n]; [reflexivity|]|].
    + cbn [String.substring all_in]. by rewrite Hc, IH.
    + cbn [String.substring]. by apply IH.
Qed.

Lemma find_char_none x s :
  Py.find_index (String x "") s = None <-> all_in (other_than x) s = true.
Proof.
  induction s as [|c s IH]; [done|]. cbn [Py.find_index String.prefix all_in].
  unfold other_than at 1. destruct (ascii_dec x c) as [->|Hne].
  - rewrite Ascii.eqb_refl. destruct s; done.
  - assert ((c =? x)%char = false) as -> by (apply Ascii.eqb_neq; congruence).
    cbn [negb andb]. rewrite <- IH. by destruct (Py.find_index (String x "") s).
Qed.

(** Before the first occurrence of a character there is none. *)
Lemma before_first x s : forall j a n,
  Py.find_index (String x "") s = Some j -> (a + n <= j)%nat ->
  all_in (other_than x) (String.substring a n s) = true.
Proof.
  induction s as [|c s IH]; intros j a n; cbn [Py.find_index String.prefix].
  - intros _ _. by destruct a, n.
  - destruct (ascii_dec x c) as [->|Hne].
    + assert (String.prefix "" s = true) as -> by (by destruct s).
      intros [= <-] H. assert (a = 0 /\ n = 0)%nat as [-> ->] by lia. reflexivity.
    + destruct (Py.find_index (String x "") s) as [k|]; [|discriminate].
      intros [= <-] H. destruct a as [|a]; [destruct n as [|n]; [reflexivity|]|].
      * cbn [String.substring all_in]. unfold other_than at 1.
        assert ((c =? x)%char = false) as -> by (apply Ascii.eqb_neq; congruence).
        apply (IH k); [reflexivity|lia].
      * cbn [String.substring]. apply (IH k); [reflexivity|lia].
Qed.

(** The payload of a line holds no closing parenthesis. *)
Lemma clamp_range len i : 0 <= len -> 0 <= Py.clamp len i <= len.
Proof. intros H. unfold Py.clamp. destruct (Z.ltb_spec i 0); lia. Qed.

Lemma payload_closed ans : all_in (other_than ")") (payload ans) = true.
Proof.
  unfold payload. generalize (Py.find ans "(" + 1). intros st.
  unfold Py.slice, Py.find.
  pose proof (clamp_range (Z.of_nat (String.length ans)) st ltac:(lia)) as Ha.
  destruct (Py.find_index ")" ans) as [j|] eqn:Ej.
  - pose proof (find_index_le _ _ _ Ej) as Hlen.
    assert (Py.clamp (Z.of_nat (String.length ans)) (Z.of_nat j) = Z.of_nat j) as ->.
    { unfold Py.clamp. destruct (Z.ltb_spec (Z.of_nat j) 0); lia. }
    destruct (Z.le_gt_cases (Py.clamp (Z.of_nat (String.length ans)) st) (Z.of_nat j))
      as [Hle|Hgt].
    + apply (before_first _ _ j); [exact Ej|lia].
    + replace (Z.to_nat (Z.of_nat j - _)) with 0%nat by lia.
      by rewrite substring_none.
  - apply all_in_substring. by apply find_char_none.
Qed.

Lemma find_char_lt x s i :
  Py.find_index (String x "") s = Some i -> (i < String.length s)%nat.
Proof.
  revert i. induction s as [|c s IH]; intros i; cbn [Py.find_index String.prefix].
  - discriminate.
  - destruct (ascii_dec x c) as [->|Hne].
    + assert (String.prefix "" s = true) as -> by (by destruct s).
      intros [= <-]. cbn [String.length]. lia.
    + destruct (Py.find_index (String x "") s) as [k|]; [|discriminate].
      intros [= <-]. specialize (IH k eq_refl). cbn [String.length]. lia.
Qed.

(** The payload of a line, case by case. *)
Lemma payload_cases line :
  payload line =
  match Py.find_index "(" line, Py.find_index ")" line with
  | Some i, Some j => String.substring (S i) (j - S i) line
  | None, Some j => String.substring 0 j line
  | Some i, None => String.substring (S i) (String.length line - 1 - S i) line
  | None, None => chop line
  end.
Proof.
  unfold payload, Py.find, Py.slice, Py.clamp, chop.
  destruct (Py.find_index "(" line) as [i|] eqn:Ei;
    destruct (Py.find_index ")" line) as [j|] eqn:Ej.
  - pose proof (find_char_lt _ _ _ Ei). pose proof (find_index_le _ _ _ Ej).
    destruct (Z.ltb_spec (Z.of_nat i + 1) 0); [lia|].
    destruct (Z.ltb_spec (Z.of_nat j) 0); [lia|]. f_equal; lia.
  - pose proof (find_char_lt _ _ _ Ei).
    destruct (Z.ltb_spec (Z.of_nat i + 1) 0); [lia|].
    change (-1 <? 0) with true. cbv iota. f_equal; lia.
  - pose proof (find_index_le _ _ _ Ej).
    change (-1 + 1 <? 0) with false. cbv iota.
    destruct (Z.ltb_spec (Z.of_nat j) 0); [lia|]. f_equal; lia.
  - change (-1 + 1 <? 0) with false. change (-1 <? 0) with true.
    cbv iota. f_equal; lia.
Qed.

Lemma prefix_append p s : String.prefix p (p ++ s) = true.
Proof.
  induction p as [|a p IH]; [by destruct s|].
  rewrite append_cons. cbn [String.prefix]. destruct (ascii_dec a a); [exact IH|done].
Qed.

(** [sub in s] says that [s] holds [sub] somewhere. *)
Lemma contains_iff sub s :
  Py.contains sub s = true <-> exists pre post, s = pre ++ sub ++ post.
Proof.
  unfold Py.contains. split.
  - destruct (Py.find_index sub s) as [i|] eqn:E; [|discriminate]. intros _.
    revert i E. induction s as [|c s IH]; intros i; cbn [Py.find_index].
    + destruct (String.prefix sub "") eqn:Ep; [|discriminate]. intros _.
      apply startswith_app in Ep as [r ->]. by exists "", r.
    + destruct (String.prefix sub (String c s)) eqn:Ep.
      * intros _. apply startswith_app in Ep as [r ->]. by exists "", r.
      * destruct (Py.find_index sub s) as [k|]; [|discriminate]. intros _.
        destruct (IH k eq_refl) as (pre & post & ->). by exists (String c pre), post.
  - intros (pre & post & ->).
    assert (exists i, Py.find_index sub (pre ++ sub ++ post) = Some i) as [i ->];
      [|reflexivity].
    induction pre as [|c pre [i IH]].
    + exists 0%nat. change ("" ++ ?x) with x.
      destruct (sub ++ post) eqn:E; cbn [Py.find_index]; rewrite <- E, prefix_append; done.
    + rewrite append_cons. cbn [Py.find_index].
      destruct (String.prefix sub (String c (pre ++ sub ++ post))); [eauto|].
      rewrite IH. cbn. eauto.
Qed.

(** X3.  The answer of the join parser never holds a closing parenthesis,
    whatever the text: the payload is cut at the first one of the line. *)
Theorem joiner_answer_closed text :
  exists out, LLMCompilerJoinerParser.parse text = OK out /\
    Py.contains ")" (answer out) = false.
Proof.
  destruct (joiner_parse_ok text) as (out & H & Ha & _).
  exists out. split; [exact H|].
  assert (all_in (other_than ")") (answer out) = true) as Hall.
  { rewrite Ha. destruct (last_action_line text); [apply payload_closed|reflexivity]. }
  apply find_char_none in Hall. unfold Py.contains. by rewrite Hall.
Qed.

(** X4.  The replan flag is raised exactly when the last action line
    holds the word [Replan] somewhere, inside its parentheses or outside. *)
Theorem joiner_replan_anywhere text :
  exists out, LLMCompilerJoinerParser.parse text = OK out /\
    (is_replan out = true <->
     exists line pre post,
       last_action_line text = Some line /\ line = pre ++ "Replan" ++ post).
Proof.
  destruct (joiner_parse_ok text) as (out & H & _ & Hr).
  exists out. split; [exact H|]. rewrite Hr.
  destruct (last_action_line text) as [line|].
  - unfold JOINER_REPLAN. rewrite contains_iff. split.
    + intros (pre & post & ->). eauto.
    + intros (l & pre & post & [= <-] & E). eauto.
  - split; [discriminate|]. intros (l & _ & _ & E & _). discriminate E.
Qed.

(** X5.  The answer for each shape of the last action line.  With both
    parentheses it is the text between the first of each, empty when the
    closing one comes first; without an opening one it is the line up to
    the first closing one; without a closing one it is the text behind the
    first opening one less the final character of the line. *)
Theorem joiner_answer_cases text line :
  last_action_line text = Some line ->
  exists out, LLMCompilerJoinerParser.parse text = OK out /\
    answer out =
    match Py.find_index "(" line, Py.find_index ")" line with
    | Some i, Some j => String.substring (S i) (j - S i) line
    | None, Some j => String.substring 0 j line
    | Some i, None => String.substring (S i) (String.length line - 1 - S i) line
    | None, None => chop line
    end.
Proof.
  intros Hl. destruct (joiner_parse_ok text) as (out & H & Ha & _).
  exists out. split; [exact H|]. rewrite Ha, Hl. apply payload_cases.
Qed.

(** X5, an instance: the closing parenthesis comes first. *)
Lemma joiner_answer_cases_witness :
  exists out, LLMCompilerJoinerParser.parse "Action: a)b(c" = OK out /\ answer out = "".
Proof.
  apply (joiner_answer_cases "Action: a)b(c" "Action: a)b(c"). reflexivity.
Defined.

Lemma is_thought_step st ans :
  exists st', joiner_step st ans = OK st' /\
    if is_thought ans then thought_of ans = OK (jo_thought st')
    else jo_thought st' = jo_thought st.
Proof.
  unfold joiner_step, is_thought, is_action, thought_of.
  destruct (Py.startswith ans "Action:"); cbn [negb andb]; [eauto|].
  destruct (Py.startswith ans "Thought:") eqn:Ht; [|eauto].
  destruct (thought_part ans Ht) as [t Hp].
  unfold mbind, result_bind in *.
  destruct (Py.split ans "Thought:") as [parts|]; [|discriminate].
  rewrite Hp. eauto.
Qed.

Lemma joiner_loop_thought ls : forall st,
  exists out, joiner_loop st ls = OK out /\
    match last (List.filter is_thought ls) with
    | Some l => thought_of l = OK (jo_thought out)
    | None => jo_thought out = jo_thought st
    end.
Proof.
  induction ls as [|ans ls IH]; intros st; cbn [joiner_loop List.filter].
  - cbn [last]. eauto.
  - destruct (is_thought_step st ans) as (st' & -> & Hst').
    destruct (IH st') as (out & Hout & Ht).
    exists out. split; [exact Hout|].
    destruct (is_thought ans).
    + rewrite last_cons. destruct (last (List.filter is_thought ls)); [exact Ht|].
      by rewrite Ht.
    + destruct (last (List.filter is_thought ls)); [exact Ht|]. by rewrite Ht.
Qed.

Lemma joiner_parse_thought text out :
  LLMCompilerJoinerParser.parse text = OK out ->
  match last_thought_line text with
  | Some l => thought_of l = OK (jo_thought out)
  | None => jo_thought out = ""
  end.
Proof.
  change (LLMCompilerJoinerParser.parse text)
    with (joiner_loop {| jo_thought := ""; answer := ""; is_replan := false |} (lines text)).
  intros H. unfold last_thought_line.
  destruct (joiner_loop_thought (lines text)
              {| jo_thought := ""; answer := ""; is_replan := false |})
    as (out' & H' & Ht).
  rewrite H in H'. by injection H' as <-.
Qed.

Lemma rstrip_rstrip s : Py.rstrip (Py.rstrip s) = Py.rstrip s.
Proof.
  induction s as [|c s IH]; [reflexivity|]. cbn [Py.rstrip].
  destruct (Py.rstrip s) as [|d t] eqn:E.
  - destruct (is_space c) eqn:Ec; [reflexivity|]. cbn [Py.rstrip]. by rewrite Ec.
  - change (Py.rstrip (String c (String d t)))
      with (match Py.rstrip (String d t) with
            | EmptyString => if is_space c then "" else String c ""
            | String _ _ as t0 => String c t0
            end).
    by rewrite IH.
Qed.

Lemma rstrip_head c s :
  is_space c = false -> exists t, Py.rstrip (String c s) = String c t.
Proof.
  intros Hc. cbn [Py.rstrip]. destruct (Py.rstrip s); [rewrite Hc|]; eauto.
Qed.

Lemma lstrip_head s :
  Py.lstrip s = "" \/ exists c t, Py.lstrip s = String c t /\ is_space c = false.
Proof.
  induction s as [|c s IH]; [by left|]. cbn [Py.lstrip].
  destruct (is_space c) eqn:Ec; [exact IH|]. right. eauto.
Qed.

(** Stripping twice is stripping once. *)
Lemma strip_strip s : Py.strip (Py.strip s) = Py.strip s.
Proof.
  unfold Py.strip. destruct (lstrip_head s) as [-> | (c & t & -> & Hc)]; [reflexivity|].
  destruct (rstrip_head c t Hc) as [t' E]. rewrite E. cbn [Py.lstrip]. rewrite Hc, <- E.
  apply rstrip_rstrip.
Qed.

Lemma split_go_skip sep x : forall s,
  Py.split_go sep (x ++ s) (String.length x) = Py.split_go sep s 0.
Proof.
  induction x as [|c x IH]; intros s.
  - change ("" ++ s) with s. by destruct s.
  - rewrite append_cons. cbn [Py.split_go String.length]. apply IH.
Qed.

Lemma split_go_absent sep s :
  Py.find_index sep s = None -> Py.split_go sep s 0 = [s].
Proof.
  induction s as [|c s IH]; [reflexivity|]. cbn [Py.find_index Py.split_go].
  destruct (String.prefix sep (String c s)); [discriminate|].
  destruct (Py.find_index sep s); [discriminate|]. intros _. by rewrite IH.
Qed.

(** The thought of a line with one thought prefix. *)
Lemma thought_of_simple t :
  Py.contains "Thought:" t = false ->
  thought_of ("Thought:" ++ t) = OK (Py.strip t).
Proof.
  unfold Py.contains. intros H.
  destruct (Py.find_index "Thought:" t) eqn:E; [discriminate|].
  unfold thought_of, Py.split. cbn [mbind result_bind].
  change ("Thought:" ++ t) with (String "T" ("hought:" ++ t)).
  cbn [Py.split_go]. change (String "T" ("hought:" ++ t)) with ("Thought:" ++ t).
  rewrite prefix_append.
  change (String.length "Thought:" - 1)%nat with (String.length "hought:").
  rewrite split_go_skip, (split_go_absent _ _ E). reflexivity.
Qed.

(** X6.  The thought that the join parser returns carries no blank at
    either end.  It is empty when no line starts with [Thought:] (lines that
    start with [Action:] apart), and for a last such line with a single
    [Thought:] it is the rest of that line, stripped. *)
Theorem joiner_thought text :
  exists out, LLMCompilerJoinerParser.parse text = OK out /\
    Py.strip (jo_thought out) = jo_thought out /\
    (last_thought_line text = None -> jo_thought out = "") /\
    (forall t, last_thought_line text = Some ("Thought:" ++ t) ->
               Py.contains "Thought:" t = false ->
               jo_thought out = Py.strip t).
Proof.
  destruct (joiner_parse_ok text) as (out & H & _).
  pose proof (joiner_parse_thought text out H) as Ht.
  exists out. split; [exact H|]. split; [|split].
  - destruct (last_thought_line text) as [l|]; [|by rewrite Ht].
    unfold thought_of in Ht. unfold mbind, result_bind in Ht.
    destruct (Py.split l "Thought:") as [parts|]; [|discriminate].
    destruct (Py.getitem parts 1) as [t|]; [|discriminate].
    injection Ht as <-. apply strip_strip.
  - intros E. by rewrite E in Ht.
  - intros t E Hc. rewrite E, (thought_of_simple t Hc) in Ht. by injection Ht as <-.
Qed.

(** X7.  The outcome of the join parser depends on the text only through
    its last action line and its last thought line: the other lines, and
    the order of the two, do not matter. *)
Theorem joiner_last_lines text1 text2 :
  last_action_line text1 = last_action_line text2 ->
  last_thought_line text1 = last_thought_line text2 ->
  LLMCompilerJoinerParser.parse text1 = LLMCompilerJoinerParser.parse text2.
Proof.
  intros Ea Et.
  destruct (joiner_parse_ok text1) as (o1 & H1 & A1 & R1).
  destruct (joiner_parse_ok text2) as (o2 & H2 & A2 & R2).
  pose proof (joiner_parse_thought _ _ H1) as T1.
  pose proof (joiner_parse_thought _ _ H2) as T2.
  rewrite H1, H2. f_equal. rewrite Ea in A1, R1. rewrite Et in T1.
  destruct o1 as [t1 a1 r1], o2 as [t2 a2 r2]. cbn [jo_thought answer is_replan] in *.
  f_equal; [|congruence..].
  destruct (last_thought_line text2); congruence.
Qed.

(** X7, an instance: lines before the last ones change nothing. *)
Lemma joiner_last_lines_witness :
  LLMCompilerJoinerParser.parse
    ("Thought: done" ++ nl ++ "Action: Finish(42)")
  = LLMCompilerJoinerParser.parse
    ("Action: Replan(first)" ++ nl ++ "Thought: none" ++ nl ++ "note" ++ nl
     ++ "Action: Finish(42)" ++ nl ++ "Thought: done").
Proof. apply joiner_last_lines; reflexivity. Defined.

(** ** The mock tokenizer *)

Lemma split_char_length x s :
  length (Py.split_go (String x "") s 0) = S (count_char x s).
Proof.
  induction s as [|c s IH]; [reflexivity|]. cbn [Py.split_go String.prefix count_char].
  destruct (ascii_dec x c) as [->|Hne].
  - assert (String.prefix "" s = true) as -> by (by destruct s).
    rewrite Ascii.eqb_refl. cbn [String.length Nat.sub length]. by rewrite IH.
  - assert ((c =? x)%char = false) as -> by (apply Ascii.eqb_neq; congruence).
    destruct (Py.split_go (String x "") s 0) eqn:E; cbn [length] in *; lia.
Qed.

(** X8.  The mock tokenizer counts one token more than the text has
    spaces: at least one, also for the empty text, and every further space
    of a run of spaces counts as a token. *)
Theorem mock_tokenizer_counts text :
  _mock_tokenizer text = OK (Z.of_nat (count_char " " text) + 1).
Proof.
  unfold _mock_tokenizer, Py.split. cbn [mbind result_bind].
  rewrite split_char_length. f_equal. lia.
Qed.

(** ** References, found and only found *)

Lemma ways_lit_elem l n s c (w : way) :
  w ∈ ways (Lit l) n s c -> w.1.1 = l /\ w.2 = c.
Proof.
  cbn [ways]. destruct (String.prefix l s); [|intros []%elem_of_nil].
  by intros ->%list_elem_of_singleton.
Qed.

Lemma ways_opt_lit_elem l n s c (w : way) :
  w ∈ ways (Opt (Lit l)) n s c -> (w.1.1 = l \/ w.1.1 = "") /\ w.2 = c.
Proof.
  rewrite ways_opt. intros [H | ->%list_elem_of_singleton]%elem_of_app.
  - apply ways_lit_elem in H as [-> ->]. auto.
  - auto.
Qed.

Lemma ways_group_plus_elem cls n s c (w : way) :
  w ∈ ways (Group (Plus cls)) n s c ->
  w.2 = (S n, w.1.1) :: c /\ w.1.1 <> "" /\ all_in cls w.1.1 = true.
Proof.
  cbn [ways]. intros (w' & -> & Hw')%list_elem_of_fmap.
  apply list_elem_of_fmap in Hw' as (p & -> & Hp). cbn [fst snd].
  split; [reflexivity|]. exact (plus_class cls s p Hp).
Qed.

(** The parts of a match of the reference pattern. *)
Lemma id_match_parts s m :
  match_at ID_PATTERN s = Some m ->
  exists b d e rest,
    s = "$" ++ b ++ d ++ e ++ rest /\ m.1 = "$" ++ b ++ d ++ e /\
    (b = "{" \/ b = "") /\ (e = "}" \/ e = "") /\
    numeral d /\ group m.2 1 = d.
Proof.
  intros (w & Hw & ->)%match_at_way. unfold ID_PATTERN in Hw.
  pose proof (ways_split _ _ _ _ _ Hw) as Hs.
  apply ways_seq in Hw as (w1 & w2 & H1 & H2 & ->).
  apply ways_seq in H2 as (w3 & w4 & H3 & H4 & ->).
  apply ways_seq in H4 as (w5 & w6 & H5 & H6 & ->).
  apply ways_lit_elem in H1 as [E1 _].
  apply ways_opt_lit_elem in H3 as [E3 _].
  apply ways_opt_lit_elem in H6 as [E6 F6].
  apply ways_group_plus_elem in H5 as (F5 & Hne & Hall).
  cbn [fst snd] in *. exists w3.1.1, w5.1.1, w6.1.1, w6.1.2.
  rewrite E1 in Hs. rewrite E1. unfold group. rewrite F6, F5.
  rewrite !app_assoc_string in Hs. cbn [lookup_group]. unfold numeral. auto 10.
Qed.

Lemma all_in_impl (p q : ascii -> bool) s :
  (forall c, p c = true -> q c = true) -> all_in p s = true -> all_in q s = true.
Proof.
  intros H. induction s as [|c s IH]; [done|]. cbn [all_in].
  intros [Hc Hs]%andb_prop. by rewrite (H c Hc), IH.
Qed.

Lemma clear_app x a rest :
  all_in (other_than x) a = true -> clear x (String.length a) (a ++ rest) = true.
Proof.
  induction a as [|c a IH]; [done|]. rewrite append_cons. cbn [all_in String.length clear].
  intros [-> Ha]%andb_prop. by apply IH.
Qed.

(** A match of the reference pattern holds its sigil and no other. *)
Lemma id_match_clear a s m :
  match_at ID_PATTERN (String a s) = Some m ->
  clear "$" (String.length m.1 - 1) s = true.
Proof.
  intros (b & d & e & rest & Hs & -> & Hb & He & [_ Hd] & _)%id_match_parts.
  change ("$" ++ ?x) with (String "$" x) in *. injection Hs as _ ->.
  cbn [String.length]. rewrite Nat.sub_1_r. cbn [Nat.pred].
  rewrite <- !app_assoc_string. rewrite (app_assoc_string b d e). apply clear_app.
  rewrite !all_in_app.
  assert (all_in (other_than "$") d = true) as ->.
  { apply (all_in_impl is_digit); [|exact Hd]. intros c Hc. unfold other_than.
    apply negb_true_iff, Ascii.eqb_neq. intros ->. discriminate Hc. }
  by destruct Hb as [-> | ->], He as [-> | ->].
Qed.

(** The scan comes to every sigil that a match can start at. *)
Lemma scan_reaches pre rest mt : forall k,
  match_at ID_PATTERN (String "$" rest) = Some mt ->
  clear "$" k (pre ++ String "$" rest) = true ->
  mt ∈ scan ID_PATTERN (pre ++ String "$" rest) k.
Proof.
  intros k Hm. revert k. induction pre as [|c pre IH]; intros k Hk.
  - change ("" ++ ?x) with x in *. destruct k as [|k]; [|discriminate Hk].
    rewrite (scan_found _ _ _ _ Hm). left.
  - rewrite append_cons in *. destruct k as [|k].
    + cbn [scan]. destruct (match_at ID_PATTERN (String c (pre ++ String "$" rest)))
        as [m|] eqn:E.
      * right. apply IH. exact (id_match_clear _ _ _ E).
      * by apply IH.
    + cbn [clear] in Hk. apply andb_prop in Hk as [_ Hk]. cbn [scan]. by apply IH.
Qed.

Lemma ways_opt_head r n s c :
  exists (w : way) l, ways (Opt r) n s c = w :: l /\
    (ways r n s c = [] -> w = ("", s, c)) /\
    (forall w0 l0, ways r n s c = w0 :: l0 -> w = w0).
Proof.
  rewrite ways_opt. destruct (ways r n s c) as [|w0 l0].
  - exists ("", s, c), []. split; [reflexivity|]. split; [done|discriminate].
  - exists w0, (l0 ++ [("", s, c)])%list. split; [reflexivity|]. split; [discriminate|].
    by intros ? ? [= <- _].
Qed.

Lemma int_go_digits s : forall acc z, Py.int_go acc s = OK z -> all_in is_digit s = true.
Proof.
  induction s as [|c s IH]; intros acc z; [done|].
  cbn [Py.int_go all_in]. destruct (is_digit c); [|discriminate]. apply IH.
Qed.

Lemma int_numeral_inv s z : Py.int s = OK z -> numeral s.
Proof.
  unfold Py.int, numeral. destruct s as [|a s]; [discriminate|].
  destruct (_ <=? _)%nat; [|discriminate].
  intros H. split; [done|]. exact (int_go_digits _ _ _ H).
Qed.

(** The match of the reference pattern at a well-formed reference, bare or
    braced. *)
Lemma id_match_head b num post :
  b = "" \/ b = "{" -> numeral num -> stops is_digit post = true ->
  exists m, match_at ID_PATTERN ("$" ++ b ++ num ++ post) = Some m /\ group m.2 1 = num.
Proof.
  intros Hb [Hne Hd] Hp.
  destruct (plus_head is_digit num post Hne Hd Hp) as [l0 H0].
  destruct (ways_group_plus_head _ 0 _ [] _ _ H0) as [l1 H1]. cbn [fst snd] in H1.
  destruct (ways_opt_head (Lit "}") 1 post [(1%nat, num)]) as (w6 & l6 & H6 & Hn & Hs).
  assert (w6.2 = [(1%nat, num)]) as E6.
  { destruct (ways (Lit "}") 1 post [(1%nat, num)]) as [|w0 l] eqn:E.
    - by rewrite (Hn eq_refl).
    - rewrite (Hs _ _ eq_refl). assert (w0 ∈ w0 :: l) as Hin by left.
      rewrite <- E in Hin. by apply ways_lit_elem in Hin as [_ ->]. }
  destruct (ways_seq_cons _ (Opt (Lit "}")) _ _ _ _ _ _ _ H1 H6) as [l2 H2].
  assert (exists l, ways (Opt (Lit "{")) 0 (b ++ num ++ post) []
                    = (b, num ++ post, []) :: l) as [l3 H3].
  { destruct Hb as [-> | ->].
    - exists []. rewrite ways_opt. change ("" ++ ?x) with x.
      destruct num as [|d num]; [done|]. rewrite append_cons.
      cbn [all_in] in Hd. apply andb_prop in Hd as [Hd _].
      rewrite (ways_lit_fail "{" d _ _ _ "{" ""); [reflexivity..|].
      intros ->. discriminate Hd.
    - rewrite ways_opt, ways_lit. cbn [app]. eauto. }
  destruct (ways_seq_cons _ (Group (Plus is_digit) >> Opt (Lit "}")) _ _ _ _ _ _ _ H3 H2)
    as [l4 H4].
  destruct (ways_seq_cons (Lit "$") _ 0 _ [] _ _ [] _ (ways_lit _ _ _ _) H4) as [l5 H5].
  eexists. split; [exact (first_way _ _ _ _ H5)|].
  unfold join_ways, group. cbn [fst snd]. rewrite E6. reflexivity.
Qed.

Lemma reference_in_numbers pre rest mt z :
  match_at ID_PATTERN (String "$" rest) = Some mt ->
  Py.int (group mt.2 1) = OK z ->
  returns (reference_numbers (pre ++ String "$" rest)) ->
  default_dependency_rule z (pre ++ String "$" rest) = OK true.
Proof.
  intros Hm Hz [numbers Hn]. unfold default_dependency_rule.
  rewrite Hn. cbn [mbind result_bind]. f_equal. apply bool_decide_eq_true_2.
  unfold reference_numbers, findall in Hn.
  pose proof (scan_reaches pre rest mt 0 Hm eq_refl) as Hin.
  apply (list_elem_of_fmap_2 (item ID_PATTERN)) in Hin.
  destruct (for_each_image _ _ _ _ Hn Hin) as (b & Hb & Hi).
  change (item ID_PATTERN mt) with [group mt.2 1] in Hi. cbn [int_of_match] in Hi.
  rewrite Hz in Hi. by injection Hi as ->.
Qed.

(** X9.  A reference is found wherever it stands.  For a numeral [num] of
    value [z], [default_dependency_rule z] holds of every text with
    [${num}] in it, and of every text with [$num] in it that no digit
    follows, provided that the scan of the text returns: it raises when
    another reference of the text has more digits than [int] reads. *)
Theorem reference_found pre num post z :
  Py.int num = OK z ->
  (stops is_digit post = true ->
   returns (reference_numbers (pre ++ "$" ++ num ++ post)) ->
   default_dependency_rule z (pre ++ "$" ++ num ++ post) = OK true) /\
  (returns (reference_numbers (pre ++ "${" ++ num ++ "}" ++ post)) ->
   default_dependency_rule z (pre ++ "${" ++ num ++ "}" ++ post) = OK true).
Proof.
  intros Hz. pose proof (int_numeral_inv _ _ Hz) as Hnum. split.
  - intros Hp. destruct (id_match_head "" num post (or_introl eq_refl) Hnum Hp)
      as (m & Hm & Hg).
    apply (reference_in_numbers pre _ m z Hm). by rewrite Hg.
  - destruct (id_match_head "{" num ("}" ++ post) (or_intror eq_refl) Hnum eq_refl)
      as (m & Hm & Hg).
    apply (reference_in_numbers pre _ m z Hm). by rewrite Hg.
Qed.

Lemma scan_match_at r s : forall k m,
  m ∈ scan r s k -> exists pre s0, s = pre ++ s0 /\ match_at r s0 = Some m.
Proof.
  induction s as [|a s IH]; intros k m; destruct k as [|k]; cbn [scan].
  - destruct (match_at r "") as [m0|] eqn:E; [|intros []%elem_of_nil].
    intros ->%list_elem_of_singleton. by exists "", "".
  - intros []%elem_of_nil.
  - destruct (match_at r (String a s)) as [m0|] eqn:E.
    + intros [-> | H]%elem_of_cons; [by exists "", (String a s)|].
      destruct (IH _ _ H) as (pre & s0 & -> & Hm). by exists (String a pre), s0.
    + intros H. destruct (IH _ _ H) as (pre & s0 & -> & Hm). by exists (String a pre), s0.
  - intros H. destruct (IH _ _ H) as (pre & s0 & -> & Hm). by exists (String a pre), s0.
Qed.

(** X10.  Only references are found.  When [default_dependency_rule z]
    holds of a text, the text has a sigil, bare or with an opening brace,
    before a numeral of value [z]. *)
Theorem reference_only_found z args :
  default_dependency_rule z args = OK true ->
  exists pre num post,
    (args = pre ++ "$" ++ num ++ post \/ args = pre ++ "${" ++ num ++ post) /\
    Py.int num = OK z.
Proof.
  unfold default_dependency_rule, reference_numbers, findall.
  destruct (for_each int_of_match _) as [numbers|] eqn:Hn; [|discriminate].
  cbn [mbind result_bind]. intros [= Hz]. apply bool_decide_eq_true_1 in Hz.
  destruct (for_each_elem _ _ _ _ Hn Hz) as (x & Hx & Hi).
  apply list_elem_of_fmap in Hx as (m & -> & Hm).
  apply scan_match_at in Hm as (pre & s0 & -> & Hm).
  apply id_match_parts in Hm as (b & d & e & rest & -> & _ & Hb & _ & _ & Hg).
  change (item ID_PATTERN m) with [group m.2 1] in Hi. cbn [int_of_match] in Hi.
  rewrite Hg in Hi. exists pre, d, (e ++ rest). split; [|exact Hi].
  destruct Hb as [-> | ->]; [right|left]; reflexivity.
Qed.

(** X9, an instance: a bare reference inside an identifier. *)
Lemma reference_found_witness :
  default_dependency_rule 12 ("f(x" ++ "$" ++ "12" ++ "y, ${3})") = OK true.
Proof.
  apply (proj1 (reference_found "f(x" "12" "y, ${3})" 12 eq_refl)); [reflexivity|].
  exists [12; 3]. vm_compute. reflexivity.
Defined.

(** X10, an instance: the braced reference of [f(${3})]. *)
Lemma reference_only_found_witness :
  exists pre num post,
    ("f(${3})" = pre ++ "$" ++ num ++ post \/ "f(${3})" = pre ++ "${" ++ num ++ post) /\
    Py.int num = OK 3.
Proof. apply (reference_only_found 3 "f(${3})"). vm_compute. reflexivity. Defined.

(** X6, an instance: blanks around the thought are dropped. *)
Lemma joiner_thought_witness :
  exists out,
    LLMCompilerJoinerParser.parse ("Thought:   plan it  " ++ nl ++ "Action: Finish(1)")
    = OK out /\ jo_thought out = "plan it".
Proof.
  destruct (joiner_thought ("Thought:   plan it  " ++ nl ++ "Action: Finish(1)"))
    as (out & H & _ & _ & Ht).
  exists out. split; [exact H|]. apply (Ht "   plan it  "); reflexivity.
Defined.

(** ** A join text read back *)

Lemma split_char_app x a b :
  all_in (other_than x) a = true ->
  Py.split_go (String x "") (a ++ String x b) 0 = a :: Py.split_go (String x "") b 0.
Proof.
  induction a as [|c a IH]; intros Ha.
  - change ("" ++ ?s) with s. cbn [Py.split_go String.prefix].
    destruct (ascii_dec x x); [|done].
    by assert (String.prefix "" b = true) as -> by (by destruct b).
  - cbn [all_in] in Ha. apply andb_prop in Ha as [Hc Ha].
    rewrite append_cons. cbn [Py.split_go String.prefix].
    destruct (ascii_dec x c) as [->|_].
    + unfold other_than in Hc. by rewrite Ascii.eqb_refl in Hc.
    + by rewrite (IH Ha).
Qed.

Lemma split_char_none x b :
  all_in (other_than x) b = true -> Py.split_go (String x "") b 0 = [b].
Proof. intros H. by apply split_go_absent, find_char_none. Qed.

Lemma find_char_app x a b :
  all_in (other_than x) a = true ->
  Py.find_index (String x "") (a ++ String x b) = Some (String.length a).
Proof.
  induction a as [|c a IH]; intros Ha.
  - change ("" ++ ?s) with s. cbn [Py.find_index String.prefix].
    destruct (ascii_dec x x); [|done].
    by assert (String.prefix "" b = true) as -> by (by destruct b).
  - cbn [all_in] in Ha. apply andb_prop in Ha as [Hc Ha].
    rewrite append_cons. cbn [Py.find_index String.prefix].
    destruct (ascii_dec x c) as [->|_].
    + unfold other_than in Hc. by rewrite Ascii.eqb_refl in Hc.
    + by rewrite (IH Ha).
Qed.

Lemma substring_skip a : forall n m s,
  String.substring (String.length a + n) m (a ++ s) = String.substring n m s.
Proof. induction a as [|c a IH]; intros n m s; [reflexivity|]. apply IH. Qed.

Lemma substring_take p r : String.substring 0 (String.length p) (p ++ r) = p.
Proof.
  induction p as [|c p IH]; [by destruct r|].
  rewrite append_cons. cbn [String.length String.substring]. by rewrite IH.
Qed.

Lemma length_append (a b : string) :
  String.length (a ++ b) = (String.length a + String.length b)%nat.
Proof. induction a as [|c a IH]; [reflexivity|]. rewrite append_cons. cbn. by rewrite IH. Qed.

(** The payload of a well-formed action line. *)
Lemma payload_action_line name p :
  all_in (other_than "(") name = true -> all_in (other_than ")") name = true ->
  all_in (other_than ")") p = true ->
  payload (action_line name p) = p.
Proof.
  intros Ho Hc Hp. rewrite payload_cases. unfold action_line.
  assert (("Action: " ++ name ++ "(" ++ p ++ ")")
          = ("Action: " ++ name) ++ String "(" (p ++ ")")) as E1
    by (by rewrite !app_assoc_string).
  assert (("Action: " ++ name ++ "(" ++ p ++ ")")
          = ("Action: " ++ name ++ "(" ++ p) ++ String ")" "") as E2
    by (by rewrite !app_assoc_string).
  rewrite E1 at 1. rewrite find_char_app by (rewrite all_in_app; by rewrite Ho).
  rewrite E2 at 1. rewrite find_char_app
    by (rewrite !all_in_app; cbn [all_in]; by rewrite Hc, Hp).
  rewrite E1. rewrite !length_append. cbn [String.length].
  replace (S (8 + String.length name)) with (String.length ("Action: " ++ name) + 1)%nat
    by (rewrite length_append; cbn; lia).
  rewrite substring_skip. cbn [String.substring].
  replace (8 + (String.length name + (1 + String.length p))
           - (String.length ("Action: " ++ name) + 1))%nat
    with (String.length p) by (rewrite length_append; cbn; lia).
  apply substring_take.
Qed.

Lemma not_newline_other c : not_newline c = other_than LF c.
Proof. by destruct c as [[] [] [] [] [] [] [] []]. Qed.

Lemma no_newline_other s :
  all_in not_newline s = true -> all_in (other_than LF) s = true.
Proof. apply all_in_impl. intros c. by rewrite not_newline_other. Qed.

Lemma lines_join_text t name p :
  all_in not_newline t = true -> all_in not_newline name = true ->
  all_in not_newline p = true ->
  lines (join_text t name p) = ["Thought: " ++ t; action_line name p].
Proof.
  intros Ht Hn Hp. unfold lines, join_text, nl.
  replace ("Thought: " ++ t ++ String LF "" ++ action_line name p)
    with (("Thought: " ++ t) ++ String LF (action_line name p))
    by (by rewrite !app_assoc_string).
  rewrite split_char_app, split_char_none; [reflexivity| |].
  - unfold action_line. rewrite !all_in_app.
    by rewrite (no_newline_other _ Hn), (no_newline_other _ Hp).
  - rewrite all_in_app. by rewrite (no_newline_other _ Ht).
Qed.

(** X11.  Round trip of the join parser.  A thought line and an action
    line [Action: name(payload)] are read back as the stripped thought and
    the payload, provided the name holds no parenthesis and the payload no
    closing one; the replan flag tells whether the action line holds
    [Replan]. *)
Theorem joiner_round_trip t name p :
  all_in not_newline t = true -> Py.contains "Thought:" t = false ->
  all_in not_newline name = true ->
  all_in (other_than "(") name = true -> all_in (other_than ")") name = true ->
  all_in not_newline p = true -> all_in (other_than ")") p = true ->
  LLMCompilerJoinerParser.parse (join_text t name p)
  = OK {| jo_thought := Py.strip t;
          answer := p;
          is_replan := Py.contains "Replan" (action_line name p) |}.
Proof.
  intros Ht Hth Hn Hno Hnc Hp Hpc.
  pose proof (lines_join_text t name p Ht Hn Hp) as Hl.
  destruct (joiner_parse_ok (join_text t name p)) as (out & H & Ha & Hr).
  pose proof (joiner_parse_thought _ _ H) as Hto.
  unfold last_action_line in Ha, Hr. unfold last_thought_line in Hto.
  rewrite Hl in Ha, Hr, Hto.
  change (last (List.filter is_action ["Thought: " ++ t; action_line name p]))
    with (Some (action_line name p)) in Ha, Hr.
  assert (thought_of ("Thought:" ++ String " " t) = OK (jo_thought out)) as Hto'
    by exact Hto.
  clear Hto. rename Hto' into Hto. rewrite thought_of_simple in Hto.
  - rewrite H. destruct out as [th an re]. cbn [jo_thought answer is_replan] in *.
    injection Hto as <-. rewrite Ha, Hr, (payload_action_line name p Hno Hnc Hpc).
    reflexivity.
  - unfold Py.contains in *. cbn [Py.find_index String.prefix].
    destruct (ascii_dec "T" " "); [done|].
    by destruct (Py.find_index "Thought:" t).
Qed.

(** X11, an instance: the finishing text of the specification. *)
Lemma joiner_round_trip_witness :
  LLMCompilerJoinerParser.parse ("Thought: done" ++ nl ++ "Action: Finish(42)")
  = OK {| jo_thought := "done"; answer := "42"; is_replan := false |}.
Proof. apply (joiner_round_trip "done" "Finish" "42"); reflexivity. Defined.

(** ** Numbers of references *)

Lemma for_each_all {A B} (f : A -> result B) (P : B -> Prop) l bs :
  (forall a b, f a = OK b -> P b) -> for_each f l = OK bs -> Forall P bs.
Proof.
  intros Hf H. apply Forall_forall. intros b Hb.
  destruct (for_each_elem _ _ _ _ H Hb) as (a & _ & Ha). eauto.
Qed.

(** X12.  References are numerals, so no number found is negative:
    [default_dependency_rule] is never true of a negative id, and it is
    false of it whenever the scan of the arguments returns. *)
Theorem reference_numbers_nonneg args z :
  z < 0 ->
  default_dependency_rule z args <> OK true /\
  (returns (reference_numbers args) -> default_dependency_rule z args = OK false).
Proof.
  intros Hz.
  assert (forall numbers, reference_numbers args = OK numbers -> z ∉ numbers) as Hout.
  { intros numbers Hn Hin.
    assert (Forall (fun n => 0 <= n) numbers) as Hall.
    { apply (for_each_all int_of_match (fun n => 0 <= n) (findall ID_PATTERN args) numbers);
        [|exact Hn].
      intros [|d [|? ?]] b; cbn [int_of_match]; try discriminate. apply int_nonneg. }
    rewrite Forall_forall in Hall. specialize (Hall z Hin). lia. }
  unfold default_dependency_rule. split.
  - destruct (reference_numbers args) as [numbers|] eqn:Hn; [|discriminate].
    cbn [mbind result_bind]. intros [= H]. apply bool_decide_eq_true_1 in H.
    exact (Hout numbers eq_refl H).
  - intros [numbers Hn]. rewrite Hn. cbn [mbind result_bind]. f_equal.
    apply bool_decide_eq_false_2. exact (Hout numbers Hn).
Qed.

(** X12, an instance. *)
Lemma reference_numbers_nonneg_witness :
  default_dependency_rule (-1) "f($1, ${2})" = OK false.
Proof.
  apply (proj2 (reference_numbers_nonneg "f($1, ${2})" (-1) ltac:(lia))).
  exists [1; 2]. vm_compute. reflexivity.
Defined.

(** ** A step with a tag *)

Lemma ways_plus_head cls n s c p l :
  plus cls s = p :: l -> exists l', ways (Plus cls) n s c = (p.1, p.2, c) :: l'.
Proof. intros H. cbn [ways]. rewrite H. cbn [fmap list_fmap]. eauto. Qed.

Lemma tag_word_head m c tag post :
  tag <> "" -> all_in is_word tag = true ->
  exists l, ways (Plus is_word >> Lit nl) m (tag ++ nl ++ post) c
            = (tag ++ nl, post, c) :: l.
Proof.
  intros Hne Hw.
  destruct (plus_head is_word tag (nl ++ post) Hne Hw eq_refl) as [l0 H0].
  destruct (ways_plus_head _ m _ c _ _ H0) as [l1 H1].
  destruct (ways_seq_cons _ (Lit nl) _ _ _ _ (nl, post, c) _ [] H1) as [l2 H2].
  { apply (ways_lit nl). }
  exists l2. exact H2.
Qed.

Lemma tag_body_head m c sp tag post :
  all_in is_space sp = true -> tag <> "" -> all_in is_word tag = true ->
  exists l, ways (Star is_space >> Lit "#" >> Plus is_word >> Lit nl) m
              (sp ++ "#" ++ tag ++ nl ++ post) c
            = (sp ++ "#" ++ tag ++ nl, post, c) :: l.
Proof.
  intros Hsp Hne Hw.
  destruct (tag_word_head (m + 0 + 0) c tag post Hne Hw) as [l1 H1].
  destruct (ways_seq_cons (Lit "#") _ (m + 0) _ c _ _ [] _ (ways_lit _ _ _ _) H1)
    as [l2 H2].
  destruct (star_head is_space sp ("#" ++ tag ++ nl ++ post) Hsp eq_refl) as [l3 H3].
  destruct (ways_star_head _ m _ c _ _ H3) as [l4 H4].
  destruct (ways_seq_cons _ _ _ _ _ _ _ _ _ H4 H2) as [l Hl].
  exists l. exact Hl.
Qed.

(** The optional tag takes a tag that is there, and captures it. *)
Lemma tag_head n c sp tag post :
  all_in is_space sp = true -> tag <> "" -> all_in is_word tag = true ->
  exists l, ways TAG n (tag_text sp tag ++ post) c
            = (tag_text sp tag, post, (S n, tag_text sp tag) :: c) :: l.
Proof.
  intros Hsp Hne Hw. unfold tag_text.
  assert ((sp ++ "#" ++ tag ++ nl) ++ post = sp ++ "#" ++ tag ++ nl ++ post) as ->
    by (by rewrite !app_assoc_string).
  destruct (tag_body_head (S n) c sp tag post Hsp Hne Hw) as [l0 H0].
  destruct (ways_group _ _ _ _ _ _ H0) as [l1 H1].
  unfold TAG. rewrite ways_opt, H1. cbn [fst snd app]. eauto.
Qed.

(** A greedy repetition over a text of its class and a further character
    of it: every way that goes beyond the character comes before the way
    that stops in front of it. *)
Lemma star_give_back cls a x s :
  all_in cls a = true -> cls x = true ->
  exists l, star cls (a ++ String x s)
            = (((fun p => prepend a (shift x p)) <$> star cls s)
               ++ (a, String x s) :: l)%list.
Proof.
  intros Ha Hx. induction a as [|y a IH].
  - exists []. change ("" ++ String x s) with (String x s). cbn [star]. rewrite Hx.
    reflexivity.
  - cbn [all_in] in Ha. apply andb_prop in Ha as [Hy Ha]. destruct (IH Ha) as [l Hl].
    rewrite append_cons. cbn [star]. rewrite Hy, Hl, fmap_app, <- list_fmap_compose.
    rewrite fmap_cons, <- app_assoc. eexists. reflexivity.
Qed.

Lemma bind_fails {A B} (k : A -> list B) (l : list A) :
  (forall x, x ∈ l -> k x = []) -> l ≫= k = [].
Proof.
  induction l as [|x l IH]; intros H; [reflexivity|].
  rewrite bind_cons, (H x) by left. apply IH. intros y Hy. apply H. by right.
Qed.

(** The way through [r1 >> r2] that a backtracking matcher finds first,
    when the first ways through [r1] lead nowhere. *)
Lemma ways_seq_skip r1 r2 n s c l0 (w1 w2 : way) l1 l2 :
  ways r1 n s c = (l0 ++ w1 :: l1)%list ->
  (forall w : way, w ∈ l0 -> ways r2 (n + ngroups r1)%nat w.1.2 w.2 = []) ->
  ways r2 (n + ngroups r1)%nat w1.1.2 w1.2 = w2 :: l2 ->
  exists l, ways (r1 >> r2) n s c = join_ways w1 w2 :: l.
Proof.
  intros H1 H0 H2. cbn [ways]. rewrite H1, bind_app, bind_cons, H2.
  rewrite bind_fails.
  - cbn [fmap list_fmap app]. eauto.
  - intros w Hw. by rewrite (H0 w Hw).
Qed.

Lemma ways_group_star_eq cls n s c :
  ways (Group (Star cls)) n s c = (fun p => (p.1, p.2, (S n, p.1) :: c)) <$> star cls s.
Proof. cbn [ways]. by rewrite <- list_fmap_compose. Qed.

Lemma newline_not_paren x : is_newline x = true -> x <> ")"%char.
Proof. intros H ->. discriminate H. Qed.

(** Up to the end of a line without a closing parenthesis, the ways of
    [.*] leave no closing parenthesis in front. *)
Lemma star_no_paren r u post (p : string * string) n c :
  all_in (other_than ")") u = true ->
  p ∈ star not_newline (u ++ nl ++ post) ->
  ways (Lit ")" >> r) n p.2 c = [].
Proof.
  intros Hu. revert p. induction u as [|x u IH]; intros p.
  - change ("" ++ nl ++ post) with (String LF post). cbn [star].
    change (not_newline LF) with false. cbv iota.
    intros ->%list_elem_of_singleton. reflexivity.
  - cbn [all_in] in Hu. apply andb_prop in Hu as [Hx Hu].
    assert (ways (Lit ")" >> r) n (String x (u ++ nl ++ post)) c = []) as Hhere.
    { apply ways_seq_nil, (ways_lit_fail _ _ _ _ _ ")" ""); [reflexivity|].
      unfold other_than in Hx. apply negb_true_iff, Ascii.eqb_neq in Hx. exact Hx. }
    rewrite append_cons. cbn [star]. destruct (not_newline x).
    + intros [(q & -> & Hq)%list_elem_of_fmap | ->%list_elem_of_singleton]%elem_of_app.
      * exact (IH Hu q Hq).
      * exact Hhere.
    + intros ->%list_elem_of_singleton. exact Hhere.
Qed.

Lemma space_not_paren x : is_space x = true -> other_than ")" x = true.
Proof.
  intros H. unfold other_than. apply negb_true_iff, Ascii.eqb_neq. intros ->.
  discriminate H.
Qed.

Lemma word_not_paren x : is_word x = true -> other_than ")" x = true.
Proof.
  intros H. unfold other_than. apply negb_true_iff, Ascii.eqb_neq. intros ->.
  discriminate H.
Qed.

Lemma tag_no_paren sp tag :
  all_in is_space sp = true -> all_in is_word tag = true ->
  all_in (other_than ")") (sp ++ "#" ++ tag) = true.
Proof.
  intros Hsp Hw. rewrite !all_in_app.
  rewrite (all_in_impl _ _ sp space_not_paren Hsp).
  by rewrite (all_in_impl _ _ tag word_not_paren Hw).
Qed.

(** The arguments of a step with a tag: [.*] first runs to the end of the
    line, gives back the tag, and ends in front of the closing parenthesis
    that precedes the tag. *)
Lemma tagged_args_head a sp tag post n c :
  all_in not_newline a = true ->
  all_in is_space sp = true -> tag <> "" -> all_in is_word tag = true ->
  exists l, ways (Group (Star not_newline) >> Lit ")" >> TAG) n
              ((a ++ ")" ++ tag_text sp tag) ++ post) c
            = (a ++ ")" ++ tag_text sp tag, post,
               (S (S n), tag_text sp tag) :: (S n, a) :: c) :: l.
Proof.
  intros Ha Hsp Hne Hw.
  assert ((a ++ ")" ++ tag_text sp tag) ++ post
          = a ++ String ")" ((sp ++ "#" ++ tag) ++ nl ++ post)) as ->.
  { unfold tag_text. by rewrite !app_assoc_string. }
  destruct (star_give_back not_newline a ")" ((sp ++ "#" ++ tag) ++ nl ++ post) Ha eq_refl)
    as [l0 H0].
  destruct (tag_head (n + 1 + 0) ((S n, a) :: c) sp tag post Hsp Hne Hw) as [l1 H1].
  destruct (ways_seq_cons (Lit ")") TAG (n + 1) (")" ++ tag_text sp tag ++ post)
              ((S n, a) :: c) _ _ [] _ (ways_lit _ _ _ _) H1) as [l2 H2].
  edestruct (ways_seq_skip (Group (Star not_newline)) (Lit ")" >> TAG) n
               (a ++ String ")" ((sp ++ "#" ++ tag) ++ nl ++ post)) c) as [l Hl].
  - rewrite ways_group_star_eq, H0, fmap_app, fmap_cons. reflexivity.
  - intros w (q & -> & (p & -> & Hp)%list_elem_of_fmap)%list_elem_of_fmap.
    exact (star_no_paren TAG _ post p _ _ (tag_no_paren sp tag Hsp Hw) Hp).
  - cbn [fst snd]. cbn [ngroups]. 
    assert (String ")" ((sp ++ "#" ++ tag) ++ nl ++ post) = ")" ++ tag_text sp tag ++ post)
      as -> by (unfold tag_text; by rewrite !app_assoc_string).
    exact H2.
  - exists l. rewrite Hl. unfold join_ways. cbn [fst snd].
    replace (n + 1 + 0)%nat with (S n) by lia. reflexivity.
Qed.

Lemma match_tagged_step num tool a sp tag post :
  well_formed num tool a ->
  all_in is_space sp = true -> tag <> "" -> all_in is_word tag = true ->
  match_at pattern ((step_line num tool a ++ tag_text sp tag) ++ post)
  = Some (step_line num tool a ++ tag_text sp tag,
          [(5, tag_text sp tag); (4, a); (3, tool); (2, num)]%nat).
Proof.
  intros (Hnum & Htool & Ha) Hsp Hne Hw.
  assert ((step_line num tool a ++ tag_text sp tag) ++ post
          = "" ++ num ++ ". " ++ tool ++ "(" ++ (a ++ ")" ++ tag_text sp tag) ++ post) as E.
  { unfold step_line. by rewrite !app_assoc_string. }
  destruct (body_head num tool (a ++ ")" ++ tag_text sp tag) post
              (fun n c => (S (S n), tag_text sp tag) :: (S n, a) :: c) Hnum Htool
              (fun n c => tagged_args_head a sp tag post n c Ha Hsp Hne Hw)
              "" 1 [] eq_refl) as [l2 H2].
  rewrite <- E in H2.
  assert (ways (Opt (THOUGHT_PATTERN >> Lit nl)) 0
            ((step_line num tool a ++ tag_text sp tag) ++ post) []
          = [("", (step_line num tool a ++ tag_text sp tag) ++ post, [])]) as H1.
  { apply thought_absent. rewrite E.
    destruct Hnum as [Hne' Hd]. destruct num as [|d num]; [done|].
    cbn [all_in] in Hd. apply andb_prop in Hd as [Hd _].
    apply (digit_facts d Hd). }
  destruct (ways_seq_cons _ ACTION_PATTERN _ _ _ _ _ _ _ H1 H2) as [l Hl].
  unfold pattern. rewrite (first_way _ _ _ _ Hl). unfold join_ways. cbn [fst snd].
  f_equal. f_equal. unfold step_line. by rewrite !app_assoc_string.
Qed.

(** X13.  A tag behind a step.  When the closing parenthesis of a
    well-formed step is followed by blanks, the sign [#], a word and a line
    feed, the step is read with the same arguments as without them: the tag
    is the fifth group of the match, which the loop of [parse] drops, and
    the scan goes on behind the line feed, whatever follows. *)
Theorem tagged_step num tool a sp tag post :
  well_formed num tool a ->
  all_in is_space sp = true -> tag <> "" -> all_in is_word tag = true ->
  findall pattern (step_line num tool a ++ tag_text sp tag ++ post)
  = [""; num; tool; a; tag_text sp tag] :: findall pattern post /\
  step_records (step_line num tool a ++ tag_text sp tag ++ post)
  = (z ← Py.int num;
     steps ← step_records post;
     OK ({| thought := ""; idx := z; tool_name := tool; args := a |} :: steps)).
Proof.
  intros Hwf Hsp Hne Hw.
  assert (findall pattern (step_line num tool a ++ tag_text sp tag ++ post)
          = [""; num; tool; a; tag_text sp tag] :: findall pattern post) as E.
  { unfold findall. rewrite <- app_assoc_string.
    rewrite (scan_at_match pattern _ post
               [(5, tag_text sp tag); (4, a); (3, tool); (2, num)]%nat).
    - reflexivity.
    - apply append_nonempty, step_line_nonempty.
    - by apply match_tagged_step. }
  split; [exact E|]. unfold step_records. rewrite E. cbn [for_each parse_result_of_match].
  by destruct (Py.int num).
Qed.

(** X13, an instance: the tag of the first step is not part of its
    arguments, and the second step is still found. *)
Lemma tagged_step_witness :
  step_records ("1. search(a) #first" ++ nl ++ "2. join($1)")
  = OK [ {| thought := ""; idx := 1; tool_name := "search"; args := "a" |};
         {| thought := ""; idx := 2; tool_name := "join"; args := "$1" |} ].
Proof.
  apply (proj2 (tagged_step "1" "search" "a" " " "first" "2. join($1)"
    ltac:(repeat split; done) eq_refl ltac:(done) eq_refl)).
Defined.

(** ** Matching within a line *)













(** ** A step and a garbage line *)










Lemma for_each_length {A B} (f : A -> result B) l : forall bs,
  for_each f l = OK bs -> length bs = length l.
Proof.
  induction l as [|a l IH]; intros bs; cbn [for_each]; [by intros [= <-]|].
  destruct (f a); [|discriminate]. cbn [mbind result_bind].
  destruct (for_each f l) as [bs0|]; [|discriminate].
  intros [= <-]. cbn [length]. by rewrite (IH bs0).
Qed.

Lemma for_each_err {A B} (f : A -> result B) l e :
  for_each f l = Err e -> exists a, a ∈ l /\ f a = Err e.
Proof.
  induction l as [|a l IH]; cbn [for_each]; [discriminate|].
  destruct (f a) as [b|e0] eqn:Ea.
  - cbn [mbind result_bind]. destruct (for_each f l) as [bs|e1]; [discriminate|].
    intros [= <-]. destruct (IH eq_refl) as (a' & Ha' & Hf).
    exists a'. split; [by right|exact Hf].
  - intros [= <-]. exists a. split; [left|exact Ea].
Qed.





(** ** A reference that [int] does not read *)





(** X14.  The scan for references raises for a long numeral and for
    nothing else: it returns when no reference of the arguments has more
    digits than [int] reads, and its only exception is [ValueError], for a
    reference that has. *)
Theorem reference_scan_raises args :
  (Forall (fun s => short s = true) (reference_numerals args) ->
   exists numbers,
     reference_numbers args = OK numbers /\
     length numbers = length (reference_numerals args)) /\
  (forall e,
     reference_numbers args = Err e ->
     e = ValueError /\ Exists (fun s => short s = false) (reference_numerals args)).
Proof.
  split.
  - intros Hshort. destruct (reference_numbers_ok args Hshort) as [numbers Hn].
    exists numbers. split; [exact Hn|].
    unfold reference_numbers, findall in Hn. unfold reference_numerals.
    by rewrite (for_each_length _ _ _ Hn), !length_fmap.
  - intros e H. unfold reference_numbers, findall in H.
    apply for_each_err in H as (x & Hx & He).
    apply list_elem_of_fmap in Hx as (m & -> & Hm).
    change (item ID_PATTERN m) with [group m.2 1] in He. cbn [int_of_match] in He.
    split; [exact (int_error _ _ He)|].
    apply Exists_exists. exists (group m.2 1). split.
    + unfold reference_numerals. by apply (list_elem_of_fmap_2 (fun m => group m.2 1)).
    + destruct (short (group m.2 1)) eqn:Es; [|reflexivity].
      apply scan_match in Hm as [s0 Hm]. apply id_pattern_digits in Hm.
      destruct (int_numeral _ Hm Es) as [z Hz]. rewrite Hz in He. discriminate He.
Qed.

(** X14, an instance: two short references. *)
Lemma reference_scan_raises_witness :
  exists numbers,
    reference_numbers "f($1, ${22})" = OK numbers /\
    length numbers = length (reference_numerals "f($1, ${22})").
Proof.
  apply (proj1 (reference_scan_raises "f($1, ${22})")).
  vm_compute. repeat constructor.
Defined.
